(** * Kratos_Agentic frontend: streaming session controller

    A shallow embedding of the client side of the assistant:
    - [frontend/src/types]                      the wire and message records,
    - [frontend/src/services/websocket.ts]      [WebSocketManager],
    - [frontend/src/components/VoiceChat.tsx]   the chunk dispatcher and the
    recording exchange,
    - [frontend/src/components/TextInput.tsx]   the typed exchange,
    - [frontend/src/components/AudioRecorder.tsx] the record button.

    The browser (sockets, timers, console) is an explicit part of the state
    and delivers its events one at a time, as the single-threaded event loop
    does.  React state is a record; a handler is a function of the render whose
    closure it is (the values of the [useState] variables it captured) and of
    the live state it updates through the setters. *)

From Stdlib Require Import ZArith Lia Bool.
From stdpp Require Import base list strings.

Open Scope Z_scope.

(** ** JavaScript values shared by every module *)

(** What a statement either completes with or throws ([Error.message]). *)
Inductive Completion (X : Type) : Type :=
| Normal (x : X)
| Throws (msg : string).
Arguments Normal {X} x.
Arguments Throws {X} msg.

(** A free-form object ([Record<string, any>]): keys with the JSON text of
    their values.  No code in scope reads one. *)
Definition JSObject : Type := list (string * string).

(** An [ArrayBuffer] or [Blob] body. *)
Definition Bytes : Type := list Byte.byte.

(** Truthiness of a string: only the empty string is falsy. *)
Definition truthy (s : string) : bool :=
  match s with
  | EmptyString => false
  | String _ _ => true
  end.

(** ** frontend/src/types *)

Inductive Stage := opinions | review | synthesis.

Inductive MemberStatus := thinking | complete | member_error.

Module CouncilMember.
Record t := mk
  { id : Z;
    opinion : string;
    score : Z;          (* a JS number; it is only ever copied *)
    status : MemberStatus }.
End CouncilMember.

Module CouncilUpdate.
Record t := mk
  { stage : Stage;
    members : list CouncilMember.t;
    dissent : option bool }.
End CouncilUpdate.

(** [content: string | ArrayBuffer | CouncilUpdate]. The casts of the code
    ([as string], [as CouncilUpdate]) check nothing at run time, so a value
    keeps its constructor wherever it is stored. *)
Inductive Content :=
| CString (s : string)
| CBuffer (b : Bytes)
| CCouncil (c : CouncilUpdate.t).

(** [prev + content]: what string concatenation makes of the right operand. *)
Definition to_string (c : Content) : string :=
  match c with
  | CString s => s
  | CBuffer _ => "[object ArrayBuffer]"
  | CCouncil _ => "[object Object]"
  end.

(** [councilUpdate ? ... : ...] on a stored snapshot ([null] is [None]). *)
Definition truthy_snapshot (c : option Content) : bool :=
  match c with
  | None => false
  | Some (CString s) => truthy s
  | Some _ => true
  end.

Inductive ChunkType := text | audio | council_update | error | done.

Module StreamingChunk.
Record t := mk
  { type : ChunkType;
    content : Content;
    metadata : option JSObject }.
End StreamingChunk.

Inductive Role := user | assistant.

Module Message.
Record Metadata := mkMetadata
  { council : option Content;
    audioUrl : option string }.

Record t := mk
  { id : Z;             (* [Date.now().toString()], kept as the number *)
    role : Role;
    content : string;
    timestamp : Z;      (* [new Date()] as epoch milliseconds *)
    metadata : option Metadata }.
End Message.

Inductive RequestType := rt_text | rt_audio | rt_image | rt_video.

(** The object literal handed to [wsManager.send]. *)
Module Outbound.
Record t := mk
  { request_type : RequestType;
    content : string;
    metadata : JSObject }.
End Outbound.

(** An entry of [console.error(label, detail)]. *)
Definition LogEntry : Type := (string * Content)%type.

(** ** frontend/src/services/websocket.ts *)

Module WS.

(** [WebSocket.readyState]. *)
Inductive ReadyState := CONNECTING | OPEN | CLOSING | CLOSED.

(** Who holds the promise [connect] returned: a client that chained
    [.then(...)] on it, or the retry timer, which chains only [.catch]. *)
Inductive Caller := ByClient | ByRetry.

(** One [WebSocket] object.  Its four handlers are installed by [connect]
    and never removed, so they are not part of its state. *)
Record Socket := mkSocket
  { readyState : ReadyState;
    caller : Caller }.

Definition maxReconnectAttempts : nat := 5.
Definition reconnectDelay : Z := 1000.

(** The manager's fields ([ws], [reconnectAttempts]) together with the part
    of the browser they act on.  A socket is named by its position in
    [sockets], the order of creation; [timers] are the pending
    [setTimeout] callbacks, each of which re-runs [connect]. *)
Record World (A : Type) := mkWorld
  { ws : option nat;
    reconnectAttempts : nat;
    sockets : list Socket;
    timers : list Z;
    sent : list (nat * Outbound.t);
    console : list LogEntry;
    app : A }.
Arguments mkWorld {A}.
Arguments ws {A}.
Arguments reconnectAttempts {A}.
Arguments sockets {A}.
Arguments timers {A}.
Arguments sent {A}.
Arguments console {A}.
Arguments app {A}.

(** What the browser and the client can make happen, one event per turn of
    the event loop.  [ctor] is the outcome of [new WebSocket(this.url)]:
    [Some msg] when the constructor throws. *)
Inductive Event :=
| Connect (ctor : option string)
| Disconnect
| Send (data : Outbound.t)
| SockOpen (id : nat)
| SockMessage (id : nat) (data : string)
| SockError (id : nat)
| SockClose (id : nat)
| TimerFire (i : nat) (ctor : option string).

Section Manager.
Context {A : Type}.
(** [JSON.parse(event.data) as StreamingChunk]; [None] when it throws.  The
    cast checks nothing: a frame that parses is taken to have the declared
    shape. *)
Variable JSON_parse : string -> option StreamingChunk.t.
(** The callbacks every [connect] in scope is given; the retry passes
    them on unchanged.  [onError] is optional in the signature. *)
Variable onMessage : StreamingChunk.t -> A -> A.
Variable onError : option (string -> A -> A).
(** The client's [.then] continuation on the promise of its own call. *)
Variable onResolved : A -> A.

Implicit Types w : World A.

Definition set_ws (v : option nat) w : World A :=
  mkWorld v (reconnectAttempts w) (sockets w) (timers w) (sent w)
          (console w) (app w).
Definition set_reconnectAttempts (n : nat) w : World A :=
  mkWorld (ws w) n (sockets w) (timers w) (sent w) (console w) (app w).
Definition set_sockets (l : list Socket) w : World A :=
  mkWorld (ws w) (reconnectAttempts w) l (timers w) (sent w)
          (console w) (app w).
Definition set_timers (l : list Z) w : World A :=
  mkWorld (ws w) (reconnectAttempts w) (sockets w) l (sent w)
          (console w) (app w).
Definition set_sent (l : list (nat * Outbound.t)) w : World A :=
  mkWorld (ws w) (reconnectAttempts w) (sockets w) (timers w) l
          (console w) (app w).
Definition console_error (label : string) (detail : Content) w : World A :=
  mkWorld (ws w) (reconnectAttempts w) (sockets w) (timers w) (sent w)
          (console w ++ [(label, detail)]) (app w).
Definition in_app (f : A -> A) w : World A :=
  mkWorld (ws w) (reconnectAttempts w) (sockets w) (timers w) (sent w)
          (console w) (f (app w)).

(** [if (onError) { onError(new Error(msg)) }]. *)
Definition report (msg : string) w : World A :=
  match onError with
  | Some f => in_app (f msg) w
  | None => w
  end.

Definition setReadyState (id : nat) (r : ReadyState) w : World A :=
  match sockets w !! id with
  | Some s => set_sockets (<[id := mkSocket r (caller s)]> (sockets w)) w
  | None => w
  end.

(** [connect]: the promise executor.  [Throws] is [reject(error)], the
    constructor having thrown before the assignment to [this.ws];
    otherwise a new socket is created and [this.ws] is overwritten with
    it, whatever it held. *)
Definition connect (c : Caller) (ctor : option string) w
  : Completion (World A) :=
  match ctor with
  | Some msg => Throws msg
  | None =>
      Normal (set_ws (Some (length (sockets w)))
                (set_sockets (sockets w ++ [mkSocket CONNECTING c]) w))
  end.

(** [this.ws.onopen]. *)
Definition onopen (c : Caller) w : World A :=
  let w := set_reconnectAttempts 0 w in
  match c with
  | ByClient => in_app onResolved w
  | ByRetry => w
  end.

(** [this.ws.onmessage]: the [try] covers the parse and the callback. *)
Definition onmessage (data : string) w : World A :=
  match JSON_parse data with
  | Some chunk => in_app (onMessage chunk) w
  | None =>
      console_error "Failed to parse WebSocket message:"
                    (CString "SyntaxError") w
  end.

(** [this.ws.onerror]. *)
Definition onerror w : World A := report "WebSocket error" w.

(** [attemptReconnect]. *)
Definition attemptReconnect w : World A :=
  if (maxReconnectAttempts <=? reconnectAttempts w)%nat then
    report "Max reconnection attempts reached" w
  else
    let w := set_reconnectAttempts (S (reconnectAttempts w)) w in
    let delay :=
      reconnectDelay * 2 ^ (Z.of_nat (reconnectAttempts w) - 1) in
    set_timers (timers w ++ [delay]) w.

(** [this.ws.onclose]. *)
Definition onclose w : World A := attemptReconnect (set_ws None w).

(** The timer callback of [attemptReconnect]:
    [this.connect(onMessage, onError).catch(...)]. *)
Definition retry (ctor : option string) w : World A :=
  match connect ByRetry ctor w with
  | Normal w' => w'
  | Throws msg => report msg w
  end.

(** [send]. *)
Definition send (data : Outbound.t) w : Completion (World A) :=
  match ws w with
  | Some id =>
      match sockets w !! id with
      | Some (mkSocket OPEN _) => Normal (set_sent (sent w ++ [(id, data)]) w)
      | _ => Throws "WebSocket is not connected"
      end
  | None => Throws "WebSocket is not connected"
  end.

(** [WebSocket.close()]: starts the closing handshake; the close event
    comes later, as [SockClose]. *)
Definition close (id : nat) w : World A :=
  match sockets w !! id with
  | Some (mkSocket CONNECTING _) | Some (mkSocket OPEN _) =>
      setReadyState id CLOSING w
  | _ => w
  end.

(** [disconnect]. *)
Definition disconnect w : World A :=
  match ws w with
  | Some id => set_ws None (close id w)
  | None => w
  end.

(** [isConnected]. *)
Definition isConnected w : bool :=
  match ws w with
  | Some id =>
      match sockets w !! id with
      | Some (mkSocket OPEN _) => true
      | _ => false
      end
  | None => false
  end.

(** One turn of the event loop.  The browser fires [open] only on a
    connecting socket, [message] only on an open one, [error] and [close]
    only on one that is not closed yet, and a timer only once. *)
Definition step w (e : Event) : World A :=
  match e with
  | Connect ctor =>
      match connect ByClient ctor w with
      | Normal w' => w'
      | Throws _ => w       (* the client chained no [.catch] *)
      end
  | Disconnect => disconnect w
  | Send data =>
      match send data w with
      | Normal w' => w'
      | Throws _ => w
      end
  | SockOpen id =>
      match sockets w !! id with
      | Some (mkSocket CONNECTING c) => onopen c (setReadyState id OPEN w)
      | _ => w
      end
  | SockMessage id data =>
      match sockets w !! id with
      | Some (mkSocket OPEN _) => onmessage data w
      | _ => w
      end
  | SockError id =>
      match sockets w !! id with
      | Some (mkSocket CLOSED _) | None => w
      | Some _ => onerror w
      end
  | SockClose id =>
      match sockets w !! id with
      | Some (mkSocket CLOSED _) | None => w
      | Some _ => onclose (setReadyState id CLOSED w)
      end
  | TimerFire i ctor =>
      match timers w !! i with
      | Some _ => retry ctor (set_timers (delete i (timers w)) w)
      | None => w
      end
  end.

Definition run (tr : list Event) w : World A := fold_left step tr w.

(** A manager fresh from its constructor, in a browser with no socket. *)
Definition init (a : A) : World A := mkWorld None 0%nat [] [] [] [] a.

(** Everything but the console: connection and session state. *)
Definition state_of w
  : option nat * nat * list Socket * list Z * list (nat * Outbound.t) * A :=
  (ws w, reconnectAttempts w, sockets w, timers w, sent w, app w).

End Manager.
End WS.

(** ** frontend/src/components/VoiceChat.tsx *)

Module VoiceChat.

(** The six [useState] variables of the component. *)
Record State := mkState
  { messages : list Message.t;
    isRecording : bool;
    isProcessing : bool;
    currentResponse : string;
    councilUpdate : option Content;
    isConnected : bool }.

(** The component's state together with what its handlers reach outside
    React: the audio element ([played]), the console and the clock. *)
Record World := mkWorld
  { ui : State;
    played : list Content;
    console : list LogEntry;
    now : Z }.

Definition in_ui (f : State -> State) (w : World) : World :=
  mkWorld (f (ui w)) (played w) (console w) (now w).

(** The setters.  [setX(f)] applies [f] to the live value, [setX(v)] is
    [setX(_ => v)]. *)
Definition setMessages (f : list Message.t -> list Message.t) : World -> World :=
  in_ui (fun s => mkState (f (messages s)) (isRecording s) (isProcessing s)
                    (currentResponse s) (councilUpdate s) (isConnected s)).
Definition setIsRecording (v : bool) : World -> World :=
  in_ui (fun s => mkState (messages s) v (isProcessing s)
                    (currentResponse s) (councilUpdate s) (isConnected s)).
Definition setIsProcessing (v : bool) : World -> World :=
  in_ui (fun s => mkState (messages s) (isRecording s) v
                    (currentResponse s) (councilUpdate s) (isConnected s)).
Definition setCurrentResponse (f : string -> string) : World -> World :=
  in_ui (fun s => mkState (messages s) (isRecording s) (isProcessing s)
                    (f (currentResponse s)) (councilUpdate s) (isConnected s)).
Definition setCouncilUpdate (v : option Content) : World -> World :=
  in_ui (fun s => mkState (messages s) (isRecording s) (isProcessing s)
                    (currentResponse s) v (isConnected s)).
Definition setIsConnected (v : bool) : World -> World :=
  in_ui (fun s => mkState (messages s) (isRecording s) (isProcessing s)
                    (currentResponse s) (councilUpdate s) v).

Definition console_error (label : string) (detail : Content) (w : World) : World :=
  mkWorld (ui w) (played w) (console w ++ [(label, detail)]) (now w).

(** [audioService.playAudio]: starts playback and returns. *)
Definition playAudio (audioData : Content) (w : World) : World :=
  mkWorld (ui w) (played w ++ [audioData]) (console w) (now w).

(** The session is idle when neither indicator is up. *)
Definition Idle (s : State) : Prop :=
  isRecording s = false /\ isProcessing s = false.

(** Every handler below is a closure of one render: [r] holds the values
    its [useState] variables had in that render.  Reads of a state variable
    go to [r]; writes go through the setters to the live state. *)

(** [addMessage]. *)
Definition addMessage (r : State) (role : Role) (content : string)
           (w : World) : World :=
  let message :=
    Message.mk (now w) role content (now w)
      (if truthy_snapshot (councilUpdate r)
       then Some (Message.mkMetadata (councilUpdate r) None)
       else None) in
  setMessages (fun prev => prev ++ [message]) w.

(** [handleStreamingChunk]. *)
Definition handleStreamingChunk (r : State) (chunk : StreamingChunk.t)
           (w : World) : World :=
  match StreamingChunk.type chunk with
  | text =>
      setCurrentResponse
        (fun prev => prev +:+ to_string (StreamingChunk.content chunk)) w
  | audio => playAudio (StreamingChunk.content chunk) w
  | council_update => setCouncilUpdate (Some (StreamingChunk.content chunk)) w
  | done =>
      let w :=
        if truthy (currentResponse r)
        then setCurrentResponse (fun _ => "")
               (addMessage r assistant (currentResponse r) w)
        else w in
      setIsProcessing false (setCouncilUpdate None w)
  | error =>
      setIsProcessing false
        (console_error "Streaming error:" (StreamingChunk.content chunk) w)
  end.

(** The first render: every [useState] at its initial value. *)
Definition mount_render : State := mkState [] false false "" None false.

(** [useEffect(() => { wsManager.connect(onMessage, onError).then(...) }, [])]
    runs once, after the first render, and is never re-run: the callbacks it
    hands to the manager are closures of that render for as long as the
    component is mounted. *)
Definition onMessage (chunk : StreamingChunk.t) : World -> World :=
  handleStreamingChunk mount_render chunk.

Definition onError (msg : string) (w : World) : World :=
  setIsConnected false (console_error "WebSocket error:" (CString msg) w).

Definition onResolved : World -> World := setIsConnected true.

(** Chunks are applied one by one, in arrival order. *)
Definition dispatch (chunks : list StreamingChunk.t) (w : World) : World :=
  fold_left (fun w chunk => onMessage chunk w) chunks w.

(** The same with a handler re-created by the render that precedes each
    chunk (what a dependency-tracked effect would register). *)
Definition dispatch_fresh (chunks : list StreamingChunk.t) (w : World) : World :=
  fold_left (fun w chunk => handleStreamingChunk (ui w) chunk w) chunks w.

(** [handleRecordingStart]; [started] is how
    [await audioService.startRecording()] completes. *)
Definition handleRecordingStart (started : Completion unit) (w : World) : World :=
  match started with
  | Normal _ => setIsRecording true w
  | Throws msg => console_error "Failed to start recording:" (CString msg) w
  end.

(** The [catch] block of [handleRecordingStop]. *)
Definition recording_failed (msg : string) (w : World) : World :=
  setIsProcessing false
    (console_error "Failed to process recording:" (CString msg) w).

(** [handleRecordingStop], a closure of the render [r] in which the button
    was clicked.  [stopped] and [transcribed] are how the two awaited calls
    complete ([audioService.stopRecording()], [apiClient.transcribeAudio]);
    [wsManager.send] throws inside the same [try]. *)
Definition handleRecordingStop (r : State)
           (stopped : Completion Bytes) (transcribed : Completion string)
           (w : WS.World World) : WS.World World :=
  match stopped with
  | Throws msg => WS.in_app (recording_failed msg) w
  | Normal audioBlob =>
      let w := WS.in_app (setIsRecording false) w in
      let w := WS.in_app (setIsProcessing true) w in
      match transcribed with
      | Throws msg => WS.in_app (recording_failed msg) w
      | Normal transcription_text =>
          let w := WS.in_app (addMessage r user transcription_text) w in
          match WS.send (Outbound.mk rt_audio transcription_text []) w with
          | Normal w' => w'
          | Throws msg => WS.in_app (recording_failed msg) w
          end
      end
  end.

End VoiceChat.

(** ** frontend/src/components/AudioRecorder.tsx *)

Module AudioRecorder.

Inductive Handler := onStart | onStop.

Record Props := mkProps
  { isRecording : bool;
    isProcessing : bool }.

(** A click on the record button: [disabled={isProcessing}] swallows it,
    otherwise [onClick={isRecording ? onStop : onStart}] runs. *)
Definition click (p : Props) : option Handler :=
  if isProcessing p then None
  else Some (if isRecording p then onStop else onStart).

End AudioRecorder.

(** ** frontend/src/components/TextInput.tsx *)

Module TextInput.

Record State := mkState
  { messages : list Message.t;
    input : string;
    isProcessing : bool }.

(** [String.prototype.trim] on the white space of the ASCII range. *)
Fixpoint trim_start (s : string) : string :=
  match s with
  | String c s' => if Ascii.is_space c then trim_start s' else s
  | EmptyString => EmptyString
  end.

Definition trim (s : string) : string :=
  String.rev (trim_start (String.rev (trim_start s))).

(** [handleSend], run in the render whose state is [s] (the button and the
    key handler are given the current closure at every render).  The state
    updates queued before [wsManager.send] throws are still applied. *)
Definition handleSend {A} (now : Z) (s : State) (w : WS.World A)
  : State * Completion (WS.World A) :=
  if negb (truthy (trim (input s))) || isProcessing s then (s, Normal w)
  else
    let userMessage := Message.mk now user (input s) now None in
    (mkState (messages s ++ [userMessage]) "" true,
     WS.send (Outbound.mk rt_text (input s) []) w).

(** [onChange={(e) => setInput(e.target.value)}]. *)
Definition setInput (v : string) (s : State) : State :=
  mkState (messages s) v (isProcessing s).

End TextInput.

(** ** frontend/src/services/audio.ts *)

Module AudioService.

(** [MediaRecorder.state], as far as this code drives it. *)
Inductive RecordingState := inactive | recording.

(** The two fields of the service.  The stream's tracks, which
    [stopRecording] stops, are the browser's and are read by no code here. *)
Record State := mkState
  { mediaRecorder : option RecordingState;
    audioChunks : list Bytes }.

Definition init : State := mkState None [].

(** How the body of [startRecording]'s [try] ends: [getUserMedia] rejects,
    [new MediaRecorder(stream)] throws, [start()] throws, or all succeed.
    The string is what [`${error}`] makes of the error. *)
Inductive Capture :=
| GetUserMediaRejects (e : string)
| RecorderThrows (e : string)
| StartThrows (e : string)
| Captured.

(** [startRecording].  Both fields are assigned before [start()] is called,
    so a throwing [start()] leaves a fresh, inactive recorder behind. *)
Definition startRecording (c : Capture) (s : State) : State * Completion unit :=
  match c with
  | GetUserMediaRejects e | RecorderThrows e =>
      (s, Throws ("Failed to start recording: " +:+ e))
  | StartThrows e =>
      (mkState (Some inactive) [], Throws ("Failed to start recording: " +:+ e))
  | Captured => (mkState (Some recording) [], Normal tt)
  end.

(** [mediaRecorder.ondataavailable]; [event.data.size] is the length. *)
Definition ondataavailable (data : Bytes) (s : State) : State :=
  match data with
  | [] => s
  | _ :: _ => mkState (mediaRecorder s) (audioChunks s ++ [data])
  end.

(** [stopRecording] up to the return of the promise executor: [Throws] is a
    rejection ([stop_throws] is [Some e] when [mediaRecorder.stop()] throws
    inside the executor), [Normal] a promise left pending for [onstop]. *)
Definition stopRecording (stop_throws : option string) (s : State)
  : State * Completion unit :=
  match mediaRecorder s with
  | None => (s, Throws "MediaRecorder not initialized")
  | Some _ =>
      match stop_throws with
      | Some e => (s, Throws e)
      | None => (mkState (Some inactive) (audioChunks s), Normal tt)
      end
  end.

(** [mediaRecorder.onstop]: the blob the pending promise resolves with,
    [new Blob(this.audioChunks)]. *)
Definition onstop (s : State) : Bytes := concat (audioChunks s).

(** The calls and browser events the service sees. *)
Inductive Event :=
| Start (c : Capture)
| Data (data : Bytes)
| Stop (stop_throws : option string).

Definition step (s : State) (e : Event) : State :=
  match e with
  | Start c => fst (startRecording c s)
  | Data data => ondataavailable data s
  | Stop stop_throws => fst (stopRecording stop_throws s)
  end.

Definition run (tr : list Event) (s : State) : State := fold_left step tr s.

(** What a browser event carries for the recording. *)
Definition payload (e : Event) : Bytes :=
  match e with
  | Data data => data
  | _ => []
  end.

Definition is_start (e : Event) : bool :=
  match e with
  | Start _ => true
  | _ => false
  end.

End AudioService.

(** ** frontend/src/services/api.ts *)

Module ApiClient.

(** The body of the transcription endpoint, of which the caller reads
    [.text]. *)
Record Transcription := mkTranscription
  { text : string }.

(** What [fetch] resolves with: [json] is how [response.json()] completes. *)
Record Response := mkResponse
  { ok : bool;
    statusText : string;
    json : Completion Transcription }.

(** [transcribeAudio]; [fetched] is how [await fetch(...)] completes. *)
Definition transcribeAudio (fetched : Completion Response)
  : Completion Transcription :=
  match fetched with
  | Throws e => Throws e
  | Normal response =>
      if negb (ok response)
      then Throws ("API error: " +:+ statusText response)
      else json response
  end.

End ApiClient.

(** ** frontend/src/hooks/useWebSocket.ts *)

Module UseWebSocket.

Record State := mkState
  { isConnected : bool;
    error : option string }.

(** [url ? new (wsManager.constructor as any)(url) : wsManager]. *)
Definition own_manager (url : option string) : bool :=
  match url with
  | Some u => truthy u
  | None => false
  end.

(** A manager just constructed, in the browser of [w]. *)
Definition fresh {A} (w : WS.World A) : WS.World A :=
  WS.mkWorld None 0%nat (WS.sockets w) (WS.timers w) (WS.sent w)
             (WS.console w) (WS.app w).

(** The browser as a call on another manager left it, seen again from the
    shared manager, whose own fields that call cannot reach. *)
Definition back_to {A} (w w' : WS.World A) : WS.World A :=
  WS.mkWorld (WS.ws w) (WS.reconnectAttempts w) (WS.sockets w') (WS.timers w')
             (WS.sent w') (WS.console w') (WS.app w').

(** [send]. *)
Definition send {A} (url : option string) (data : Outbound.t) (w : WS.World A)
  : Completion (WS.World A) :=
  if own_manager url then
    match WS.send data (fresh w) with
    | Normal w' => Normal (back_to w w')
    | Throws e => Throws e
    end
  else WS.send data w.

(** [disconnect]. *)
Definition disconnect {A} (url : option string) (s : State) (w : WS.World A)
  : State * WS.World A :=
  (mkState false (error s),
   if own_manager url then back_to w (WS.disconnect (fresh w))
   else WS.disconnect w).

End UseWebSocket.

(** ** Glue of [VoiceChat]'s render and the scenarios used below *)

(** The props [VoiceChat] renders its [AudioRecorder] with. *)
Definition recorder_props (s : VoiceChat.State) : AudioRecorder.Props :=
  AudioRecorder.mkProps (VoiceChat.isRecording s) (VoiceChat.isProcessing s).

(** The contents of a run of chunks, joined the way the [text] case joins
    them one after the other. *)
Definition concat_contents (chunks : list StreamingChunk.t) : string :=
  foldr (fun chunk acc => to_string (StreamingChunk.content chunk) +:+ acc)
        "" chunks.

Definition text_chunk (s : string) : StreamingChunk.t :=
  StreamingChunk.mk text (CString s) None.
Definition done_chunk : StreamingChunk.t :=
  StreamingChunk.mk done (CString "") None.
Definition error_chunk (s : string) : StreamingChunk.t :=
  StreamingChunk.mk error (CString s) None.
Definition council_chunk (c : CouncilUpdate.t) : StreamingChunk.t :=
  StreamingChunk.mk council_update (CCouncil c) None.

Module Scenario.

Definition hello : Message.t := Message.mk 1700000000000 user "Hello" 1700000000000 None.

(** [VoiceChat] while the reply to "Hello" is awaited. *)
Definition streaming : VoiceChat.World :=
  VoiceChat.mkWorld
    (VoiceChat.mkState [hello] false true "" None true) [] [] 1700000000500.

Definition opinions_round : CouncilUpdate.t :=
  CouncilUpdate.mk opinions
    [CouncilMember.mk 1 "yes" 7 complete; CouncilMember.mk 2 "" 0 thinking]
    None.
Definition review_round : CouncilUpdate.t :=
  CouncilUpdate.mk review [CouncilMember.mk 1 "yes" 9 complete] (Some true).

(** [VoiceChat] with a council snapshot on display. *)
Definition deliberating : VoiceChat.World :=
  VoiceChat.mkWorld
    (VoiceChat.mkState [hello] false true "So far" (Some (CCouncil opinions_round)) true)
    [] [] 1700000000700.

(** No frame parses. *)
Definition no_parse (data : string) : option StreamingChunk.t := None.

(** A manager with [VoiceChat] mounted on it. *)
Definition step : WS.World VoiceChat.World -> WS.Event -> WS.World VoiceChat.World :=
  WS.step no_parse VoiceChat.onMessage (Some VoiceChat.onError) VoiceChat.onResolved.
Definition run (tr : list WS.Event) : WS.World VoiceChat.World -> WS.World VoiceChat.World :=
  WS.run no_parse VoiceChat.onMessage (Some VoiceChat.onError) VoiceChat.onResolved tr.

Definition mounted : WS.World VoiceChat.World :=
  WS.init (VoiceChat.mkWorld VoiceChat.mount_render [] [] 1700000000000).

(** Connected: the mount effect ran and the socket opened. *)
Definition connected : WS.World VoiceChat.World :=
  run [WS.Connect None; WS.SockOpen 0%nat] mounted.

(** Connected, the recording stopped being the next thing to happen. *)
Definition recording : WS.World VoiceChat.World :=
  WS.in_app (VoiceChat.setIsRecording true) connected.

(** [TextInput] with a request in flight and more text typed. *)
Definition typing_while_busy : TextInput.State :=
  TextInput.mkState [hello] "and another thing" true.

End Scenario.

(** ** Chunk sequences, the recording exchange end to end, more scenarios *)

Definition is_text (chunk : StreamingChunk.t) : bool :=
  match StreamingChunk.type chunk with text => true | _ => false end.
Definition is_audio (chunk : StreamingChunk.t) : bool :=
  match StreamingChunk.type chunk with audio => true | _ => false end.
Definition is_error (chunk : StreamingChunk.t) : bool :=
  match StreamingChunk.type chunk with error => true | _ => false end.
(** The chunks that end a reply. *)
Definition is_terminal (chunk : StreamingChunk.t) : bool :=
  match StreamingChunk.type chunk with done | error => true | _ => false end.
(** The chunks that write the council snapshot. *)
Definition writes_snapshot (chunk : StreamingChunk.t) : bool :=
  match StreamingChunk.type chunk with
  | council_update | done => true
  | _ => false
  end.

(** Chunks applied in arrival order by handlers whose render is chosen by
    [pick]: the first render for [VoiceChat.dispatch], the current one for
    [VoiceChat.dispatch_fresh]. *)
Definition feed (pick : VoiceChat.World -> VoiceChat.State)
           (chunks : list StreamingChunk.t) (w : VoiceChat.World)
  : VoiceChat.World :=
  fold_left (fun w chunk => VoiceChat.handleStreamingChunk (pick w) chunk w)
            chunks w.

(** The manager's reference, when set, names a socket that exists and is
    not closed. *)
Definition live_reference {A} (w : WS.World A) : bool :=
  match WS.ws w with
  | Some id =>
      match WS.sockets w !! id with
      | Some (WS.mkSocket WS.CLOSED _) | None => false
      | Some _ => true
      end
  | None => true
  end.

(** The printable characters of the ASCII range other than the space. *)
Definition is_graphic (c : Ascii.ascii) : bool :=
  (33 <=? Ascii.nat_of_ascii c)%nat && (Ascii.nat_of_ascii c <=? 126)%nat.

Fixpoint has_graphic (s : string) : bool :=
  match s with
  | EmptyString => false
  | String c s' => is_graphic c || has_graphic s'
  end.

(** [await apiClient.transcribeAudio(...)] followed by [transcription.text]. *)
Definition transcribed_text (fetched : Completion ApiClient.Response)
  : Completion string :=
  match ApiClient.transcribeAudio fetched with
  | Normal transcription => Normal (ApiClient.text transcription)
  | Throws e => Throws e
  end.

(** [handleRecordingStop] with the transcription call spelled out. *)
Definition recording_exchange (r : VoiceChat.State)
           (stopped : Completion Bytes)
           (fetched : Completion ApiClient.Response)
           (w : WS.World VoiceChat.World) : WS.World VoiceChat.World :=
  VoiceChat.handleRecordingStop r stopped (transcribed_text fetched) w.

(** [handleRecordingStart] with [audioService.startRecording] spelled out. *)
Definition recording_start (c : AudioService.Capture)
           (svc : AudioService.State) (w : VoiceChat.World)
  : AudioService.State * VoiceChat.World :=
  (fst (AudioService.startRecording c svc),
   VoiceChat.handleRecordingStart (snd (AudioService.startRecording c svc)) w).

(** White space only (the empty string included). *)
Fixpoint all_space (s : string) : bool :=
  match s with
  | EmptyString => true
  | String c s' => Ascii.is_space c && all_space s'
  end.

(** The calls that get as far as assigning [this.mediaRecorder]. *)
Definition creates_recorder (e : AudioService.Event) : bool :=
  match e with
  | AudioService.Start AudioService.Captured
  | AudioService.Start (AudioService.StartThrows _) => true
  | _ => false
  end.

Module Cases.

(** [TextInput] idle, a padded question typed. *)
Definition question_typed : TextInput.State :=
  TextInput.mkState [] "  What is new?  " false.

(** The manager after an unexpected close, a retry pending. *)
Definition waiting_to_retry : WS.World VoiceChat.World :=
  Scenario.step Scenario.connected (WS.SockClose 0%nat).

(** The retry fired and its socket is connecting. *)
Definition reconnecting : WS.World VoiceChat.World :=
  Scenario.step waiting_to_retry (WS.TimerFire 0%nat None).

Definition wav : Bytes := [Byte.x52; Byte.x49; Byte.x46; Byte.x46].

Definition service_unavailable : ApiClient.Response :=
  ApiClient.mkResponse false "Service Unavailable"
    (Normal (ApiClient.mkTranscription "ignored")).

End Cases.

(** * Properties *)

(** ** Strings *)

Lemma append_nil_l (s : string) : "" +:+ s = s.
Proof. reflexivity. Qed.

Lemma append_cons (a : Ascii.ascii) (s t : string) :
  String a s +:+ t = String a (s +:+ t).
Proof. reflexivity. Qed.

Lemma append_nil_r (s : string) : s +:+ "" = s.
Proof.
  induction s as [|a s IH]; [reflexivity|].
  rewrite append_cons, IH. reflexivity.
Qed.

Lemma append_assoc (s t u : string) : (s +:+ t) +:+ u = s +:+ (t +:+ u).
Proof.
  induction s as [|a s IH]; [reflexivity|].
  rewrite !append_cons, IH. reflexivity.
Qed.

Lemma truthy_append_r (s t : string) : truthy t = true -> truthy (s +:+ t) = true.
Proof. destruct s; [rewrite append_nil_l; auto | reflexivity]. Qed.

(** ** The chunk dispatcher *)

Section Dispatcher.
Import VoiceChat.

(** The [text] case reads nothing of its closure. *)
Lemma text_chunk_appends r chunk w :
    StreamingChunk.type chunk = text ->
    handleStreamingChunk r chunk w =
    setCurrentResponse
      (fun prev => prev +:+ to_string (StreamingChunk.content chunk)) w.
  Proof. unfold handleStreamingChunk. intros ->. reflexivity. Qed.

(** A run of [text] chunks leaves everything but the accumulator alone and
    extends the accumulator by their contents, in order; the closure the
    handler came from makes no difference. *)
Lemma text_run_accumulates (pick : World -> State) chunks : forall w,
    Forall (fun chunk => StreamingChunk.type chunk = text) chunks ->
    fold_left (fun w chunk => handleStreamingChunk (pick w) chunk w) chunks w =
    setCurrentResponse (fun prev => prev +:+ concat_contents chunks) w.
  Proof.
    induction chunks as [|c cs IH]; intros w Hall.
    - destruct w as [[] ? ? ?]. cbn. unfold setCurrentResponse, in_ui. cbn.
      rewrite append_nil_r. reflexivity.
    - inversion Hall as [|? ? Hc Hcs]; subst. cbn [fold_left].
      rewrite (text_chunk_appends _ _ _ Hc), (IH _ Hcs).
      destruct w as [[] ? ? ?]. unfold setCurrentResponse, in_ui. cbn.
      rewrite append_assoc. reflexivity.
  Qed.

(** What the handler registered at mount does with a whole reply: the
    [done] case tests the [currentResponse] of the first render, which is
    the empty string, so nothing is finalized and the accumulator stays
    as the [text] chunks left it. *)
Lemma mounted_reply_not_finalized chunks d w :
    Forall (fun chunk => StreamingChunk.type chunk = text) chunks ->
    StreamingChunk.type d = done ->
    ui (dispatch (chunks ++ [d]) w) =
    mkState (messages (ui w)) (isRecording (ui w)) false
            (currentResponse (ui w) +:+ concat_contents chunks) None
            (isConnected (ui w)).
  Proof.
    intros Hall Hd. unfold dispatch. rewrite fold_left_app. cbn [fold_left].
    pose proof (text_run_accumulates (fun _ => mount_render) chunks w Hall) as Hrun.
    cbv beta in Hrun. unfold onMessage. rewrite Hrun.
    unfold handleStreamingChunk. rewrite Hd. reflexivity.
  Qed.

(** With a handler of the current render instead, a reply that starts on an
    empty accumulator and carries some text is finalized as the claim
    describes. *)
Lemma fresh_reply_finalized chunks d w :
    Forall (fun chunk => StreamingChunk.type chunk = text) chunks ->
    StreamingChunk.type d = done ->
    currentResponse (ui w) = "" ->
    truthy (concat_contents chunks) = true ->
    ui (dispatch_fresh (chunks ++ [d]) w) =
    mkState (messages (ui w) ++
               [Message.mk (now w) assistant (concat_contents chunks) (now w)
                  (if truthy_snapshot (councilUpdate (ui w))
                   then Some (Message.mkMetadata (councilUpdate (ui w)) None)
                   else None)])
            (isRecording (ui w)) false "" None (isConnected (ui w)).
  Proof.
    intros Hall Hd Hempty Hsome. unfold dispatch_fresh.
    rewrite fold_left_app. cbn [fold_left].
    rewrite (text_run_accumulates ui chunks w Hall).
    unfold handleStreamingChunk. rewrite Hd.
    destruct w as [[] ? ? ?]. cbn in *. subst.
    rewrite append_nil_l, Hsome. reflexivity.
  Qed.

End Dispatcher.


(** ** Replies, errors and council snapshots *)

Section Session.
Import VoiceChat.

(** The [error] case logs the content and lowers the processing flag; it
    touches neither the accumulator nor the snapshot nor the messages. *)
Lemma error_chunk_effect r chunk w :
  StreamingChunk.type chunk = error ->
  handleStreamingChunk r chunk w =
  mkWorld (mkState (messages (ui w)) (isRecording (ui w)) false
             (currentResponse (ui w)) (councilUpdate (ui w))
             (isConnected (ui w)))
          (played w)
          (console w ++ [("Streaming error:", StreamingChunk.content chunk)])
          (now w).
Proof. unfold handleStreamingChunk. intros ->. reflexivity. Qed.

(** C1. The reply [text "Hi"; text " there"; done] reaches the dispatcher
    that [VoiceChat] registered when it mounted, while the answer to "Hello"
    is awaited.  The processing indicator is cleared, but no assistant
    message is appended and the accumulator still holds "Hi there": the
    handler is the closure of the first render, whose [currentResponse] is
    the empty string, so the [done] case skips [addMessage] and the reset. *)
Theorem C1_mounted_dispatch_drops_the_reply :
  let w' := dispatch [text_chunk "Hi"; text_chunk " there"; done_chunk]
                     Scenario.streaming in
  messages (ui w') = [Scenario.hello] /\
  currentResponse (ui w') = "Hi there" /\
  isProcessing (ui w') = false /\
  isRecording (ui w') = false.
Proof. vm_compute. repeat split. Qed.

(** The same reply through a handler of the current render is finalized. *)
Example fresh_dispatch_finalizes_the_reply :
  let w' := dispatch_fresh [text_chunk "Hi"; text_chunk " there"; done_chunk]
                           Scenario.streaming in
  messages (ui w') =
    [Scenario.hello; Message.mk 1700000000500 assistant "Hi there" 1700000000500 None] /\
  currentResponse (ui w') = "" /\
  isProcessing (ui w') = false.
Proof. vm_compute. repeat split. Qed.

(** C5. A reply is cut short by an [error] chunk after the text "partial"
    has arrived.  The error is logged, no message is appended and the
    processing indicator is cleared, but the accumulator is not cleared: it
    still holds "partial" (and a council snapshot on display stays too). *)
Theorem C5_error_chunk_keeps_the_accumulator :
  let w' := dispatch [text_chunk "partial"; error_chunk "model crashed"]
                     Scenario.streaming in
  let w'' := handleStreamingChunk (ui Scenario.deliberating)
               (error_chunk "model crashed") Scenario.deliberating in
  currentResponse (ui w') = "partial" /\
  messages (ui w') = [Scenario.hello] /\
  isProcessing (ui w') = false /\
  console w' = [("Streaming error:", CString "model crashed")] /\
  currentResponse (ui w'') = "So far" /\
  councilUpdate (ui w'') = Some (CCouncil Scenario.opinions_round).
Proof. vm_compute. repeat split. Qed.

(** C6. Whatever closure the handler is, whatever the session holds and
    whatever snapshot was there before (none included), after a
    [council_update] chunk the snapshot is the chunk's payload, whole; no
    other part of the session, nor the audio or the console, changes. *)
Theorem C6_council_update_replaces_snapshot
  (r : State) (chunk : StreamingChunk.t) (w : World) :
  StreamingChunk.type chunk = council_update ->
  let w' := handleStreamingChunk r chunk w in
  councilUpdate (ui w') = Some (StreamingChunk.content chunk) /\
  messages (ui w') = messages (ui w) /\
  currentResponse (ui w') = currentResponse (ui w) /\
  isRecording (ui w') = isRecording (ui w) /\
  isProcessing (ui w') = isProcessing (ui w) /\
  isConnected (ui w') = isConnected (ui w) /\
  played w' = played w /\ console w' = console w.
Proof.
  intros Hty. unfold handleStreamingChunk. rewrite Hty. cbn.
  repeat split.
Qed.

(** A review round arriving over an opinions round: nothing of the two
    members or of the absent dissent flag of the old snapshot survives. *)
Lemma C6_witness :
  councilUpdate
    (ui (handleStreamingChunk mount_render
           (council_chunk Scenario.review_round) Scenario.deliberating)) =
  Some (CCouncil Scenario.review_round).
Proof.
  exact (proj1 (C6_council_update_replaces_snapshot mount_render
                  (council_chunk Scenario.review_round) Scenario.deliberating
                  eq_refl)).
Defined.

(** C10. A [done] chunk arrives while the accumulator is empty, at the
    handler registered at mount or at one of the current render: the message
    list is unchanged, the accumulator is still empty, the snapshot is
    cleared and the processing indicator is down, so that the session is idle
    exactly when no recording is going on. *)
Theorem C10_done_on_empty_accumulator
  (r : State) (chunk : StreamingChunk.t) (w : World) :
  StreamingChunk.type chunk = done ->
  r = mount_render \/ r = ui w ->
  currentResponse (ui w) = "" ->
  let w' := handleStreamingChunk r chunk w in
  messages (ui w') = messages (ui w) /\
  currentResponse (ui w') = "" /\
  councilUpdate (ui w') = None /\
  isProcessing (ui w') = false /\
  (Idle (ui w') <-> isRecording (ui w) = false).
Proof.
  intros Hty Hr Hempty.
  assert (Hcur : currentResponse r = "") by (destruct Hr; subst; auto).
  unfold handleStreamingChunk. rewrite Hty, Hcur. cbn.
  repeat split; auto.
  - intros [? _]. assumption.
Qed.

Lemma C10_witness :
  let w' := handleStreamingChunk mount_render done_chunk Scenario.streaming in
  messages (ui w') = [Scenario.hello] /\
  currentResponse (ui w') = "" /\
  councilUpdate (ui w') = None /\
  isProcessing (ui w') = false /\
  (Idle (ui w') <-> false = false).
Proof.
  exact (C10_done_on_empty_accumulator mount_render done_chunk
           Scenario.streaming eq_refl (or_introl eq_refl) eq_refl).
Defined.

(** C7. The recording is stopped, the capture yields its blob and the
    transcription call fails: nothing is sent over the channel, the manager
    and its sockets are as before, no message is appended, and both
    indicators are down, so the session is idle. *)
Theorem C7_failed_transcription_aborts
  (r : State) (audioBlob : Bytes) (msg : string) (w : WS.World World) :
  let w' := handleRecordingStop r (Normal audioBlob) (Throws msg) w in
  WS.sent w' = WS.sent w /\
  WS.ws w' = WS.ws w /\ WS.sockets w' = WS.sockets w /\
  WS.timers w' = WS.timers w /\
  messages (ui (WS.app w')) = messages (ui (WS.app w)) /\
  currentResponse (ui (WS.app w')) = currentResponse (ui (WS.app w)) /\
  isProcessing (ui (WS.app w')) = false /\
  Idle (ui (WS.app w')).
Proof. cbn. repeat split. Qed.

End Session.

(** ** The connection manager *)

Section ManagerProperties.
Import WS.
Context {A : Type}.
Variable JSON_parse : string -> option StreamingChunk.t.
Variable onMessage : StreamingChunk.t -> A -> A.
Variable onError : option (string -> A -> A).
Variable onResolved : A -> A.

Local Abbreviation step := (WS.step JSON_parse onMessage onError onResolved).
Local Abbreviation run := (WS.run JSON_parse onMessage onError onResolved).
Local Abbreviation report := (WS.report onError).
Local Abbreviation attemptReconnect := (WS.attemptReconnect onError).

Implicit Types w : World A.

Ltac unfold_handlers :=
  unfold onclose, onopen, onmessage, onerror, retry, disconnect, close, send,
    connect, setReadyState, WS.attemptReconnect, WS.report.

(** [attemptReconnect], case by case. *)
Lemma attemptReconnect_budget_left w :
  (reconnectAttempts w < maxReconnectAttempts)%nat ->
  attemptReconnect w =
  mkWorld (ws w) (S (reconnectAttempts w)) (sockets w)
          (timers w ++ [1000 * 2 ^ (Z.of_nat (S (reconnectAttempts w)) - 1)])
          (sent w) (console w) (app w).
Proof.
  intros Hlt. unfold WS.attemptReconnect.
  destruct (Nat.leb_spec maxReconnectAttempts (reconnectAttempts w)); [lia|].
  reflexivity.
Qed.

Lemma attemptReconnect_budget_spent w :
  (maxReconnectAttempts <= reconnectAttempts w)%nat ->
  attemptReconnect w = report "Max reconnection attempts reached" w.
Proof.
  intros Hle. unfold WS.attemptReconnect.
  destruct (Nat.leb_spec maxReconnectAttempts (reconnectAttempts w)); [|lia].
  reflexivity.
Qed.

Lemma report_frame msg w :
  ws (report msg w) = ws w /\
  reconnectAttempts (report msg w) = reconnectAttempts w /\
  sockets (report msg w) = sockets w /\
  timers (report msg w) = timers w /\
  sent (report msg w) = sent w /\
  console (report msg w) = console w.
Proof. unfold WS.report. destruct onError; cbn; repeat split. Qed.

Lemma attemptReconnect_bounded w :
  (reconnectAttempts w <= maxReconnectAttempts)%nat ->
  (reconnectAttempts (attemptReconnect w) <= maxReconnectAttempts)%nat.
Proof.
  intros Hle.
  destruct (Nat.lt_ge_cases (reconnectAttempts w) maxReconnectAttempts) as [Hlt|Hge].
  - rewrite attemptReconnect_budget_left by assumption. cbn. lia.
  - rewrite attemptReconnect_budget_spent by assumption.
    destruct (report_frame "Max reconnection attempts reached" w) as (_ & -> & _).
    assumption.
Qed.

(** The counter never passes the maximum, whatever happens. *)
Lemma step_bounded w e :
  (reconnectAttempts w <= maxReconnectAttempts)%nat ->
  (reconnectAttempts (step w e) <= maxReconnectAttempts)%nat.
Proof.
  intros Hle. destruct e; cbn [WS.step].
  - unfold connect. destruct ctor; cbn; assumption.
  - unfold disconnect, close, setReadyState.
    repeat case_match; cbn; assumption.
  - unfold send. repeat case_match; simplify_eq; cbn; assumption.
  - unfold onopen, setReadyState.
    repeat case_match; cbn; unfold maxReconnectAttempts; try lia; assumption.
  - unfold onmessage. repeat case_match; cbn; assumption.
  - unfold onerror. repeat case_match; try assumption;
      destruct (report_frame "WebSocket error" w) as (_ & -> & _); assumption.
  - unfold onclose, setReadyState.
    repeat case_match; try assumption; apply attemptReconnect_bounded; cbn;
      assumption.
  - unfold retry, connect.
    repeat case_match; simplify_eq; cbn; try assumption.
    match goal with
    | |- context [report ?m ?x] =>
        destruct (report_frame m x) as (_ & -> & _)
    end.
    cbn. assumption.
Qed.

Lemma run_bounded tr : forall w,
  (reconnectAttempts w <= maxReconnectAttempts)%nat ->
  (reconnectAttempts (run tr w) <= maxReconnectAttempts)%nat.
Proof.
  induction tr as [|e tr IH]; intros w Hle; [exact Hle|].
  cbn. apply IH, step_bounded, Hle.
Qed.

(** No handler reads the console: two worlds that differ only there stay
    so, event after event. *)
Lemma step_state_of w1 w2 e :
  state_of w1 = state_of w2 -> state_of (step w1 e) = state_of (step w2 e).
Proof.
  destruct w1, w2. unfold state_of. cbn. intros Heq. simplify_eq.
  destruct e; cbn [WS.step]; unfold_handlers; cbn;
    repeat (case_match; cbn); simplify_eq; reflexivity.
Qed.

Lemma run_state_of tr : forall w1 w2,
  state_of w1 = state_of w2 -> state_of (run tr w1) = state_of (run tr w2).
Proof.
  induction tr as [|e tr IH]; intros w1 w2 Heq; [exact Heq|].
  cbn. apply IH, step_state_of, Heq.
Qed.

(** C4. A frame that [JSON.parse] rejects arrives on an open socket.  It is
    logged and nothing else happens: the manager, every socket (this one
    stays open), the timers, the outbox and the session are untouched; the
    whole future of the connection is what it would have been without the
    frame; and a frame that parses, coming next on the same socket, reaches
    the message callback with the session as it was. *)
Theorem C4_unparsable_frame_dropped
  w (id : nat) (c : Caller) (data data' : string) (chunk : StreamingChunk.t)
  (tr : list Event) :
  sockets w !! id = Some (mkSocket OPEN c) ->
  JSON_parse data = None ->
  JSON_parse data' = Some chunk ->
  let w' := step w (SockMessage id data) in
  state_of w' = state_of w /\
  sockets w' !! id = Some (mkSocket OPEN c) /\
  console w' =
    console w ++ [("Failed to parse WebSocket message:", CString "SyntaxError")] /\
  state_of (run tr w') = state_of (run tr w) /\
  app (step w' (SockMessage id data')) = onMessage chunk (app w).
Proof.
  intros Hopen Hbad Hgood w'.
  assert (Hw' : w' = console_error "Failed to parse WebSocket message:"
                       (CString "SyntaxError") w).
  { subst w'. cbn [WS.step]. rewrite Hopen. unfold onmessage. rewrite Hbad.
    reflexivity. }
  assert (Hst : state_of w' = state_of w) by (rewrite Hw'; reflexivity).
  repeat split.
  - exact Hst.
  - rewrite Hw'. exact Hopen.
  - rewrite Hw'. reflexivity.
  - apply run_state_of, Hst.
  - rewrite Hw'. cbn [WS.step]. cbn. rewrite Hopen. unfold onmessage.
    rewrite Hgood. reflexivity.
Qed.

(** C3. After any history from a fresh manager the attempt counter is at
    most 5.  When a socket that is not closed yet then closes: if fewer than
    5 attempts were made, the counter goes up by one, to [k], and one retry
    is scheduled, [1000 * 2^(k-1)] ms ahead, without a report; if 5 were
    made, nothing is scheduled, the counter stays, and the failure goes to
    the error callback (when one was given). *)
Theorem C3_bounded_backoff
  (tr : list Event) (a : A) (id : nat) (s : Socket) :
  let w := run tr (init a) in
  let w' := step w (SockClose id) in
  sockets w !! id = Some s ->
  readyState s <> CLOSED ->
  (reconnectAttempts w <= 5)%nat /\
  (reconnectAttempts w' <= 5)%nat /\
  if (reconnectAttempts w <? 5)%nat
  then reconnectAttempts w' = S (reconnectAttempts w) /\
       timers w' = timers w ++ [1000 * 2 ^ (Z.of_nat (reconnectAttempts w') - 1)] /\
       app w' = app w
  else reconnectAttempts w' = reconnectAttempts w /\
       timers w' = timers w /\
       app w' = match onError with
                | Some f => f "Max reconnection attempts reached" (app w)
                | None => app w
                end.
Proof.
  intros w w' Hs Hlive.
  assert (Hw : (reconnectAttempts w <= maxReconnectAttempts)%nat).
  { subst w. apply run_bounded. cbn. unfold maxReconnectAttempts. lia. }
  set (w1 := set_ws None (setReadyState id CLOSED w)).
  assert (Hw' : w' = attemptReconnect w1).
  { subst w' w1. cbn [WS.step]. rewrite Hs. destruct s as [[] ?]; cbn in Hlive;
      try reflexivity. congruence. }
  assert (Hpre : reconnectAttempts w1 = reconnectAttempts w /\
                 timers w1 = timers w /\ app w1 = app w).
  { subst w1. unfold setReadyState. rewrite Hs. cbn. repeat split. }
  destruct Hpre as (Hn & Ht & Ha).
  unfold maxReconnectAttempts in Hw.
  split; [exact Hw|].
  split; [subst w'; apply step_bounded; exact Hw|].
  clearbody w1.
  destruct (Nat.ltb_spec (reconnectAttempts w) 5) as [Hlt|Hge].
  - rewrite Hw', attemptReconnect_budget_left
      by (rewrite Hn; unfold maxReconnectAttempts; lia).
    cbn [reconnectAttempts timers app]. rewrite Hn, Ht, Ha. repeat split.
  - rewrite Hw', attemptReconnect_budget_spent
      by (rewrite Hn; unfold maxReconnectAttempts; lia).
    unfold WS.report. destruct onError; cbn [reconnectAttempts timers app in_app];
      rewrite ?Hn, ?Ht, ?Ha; repeat split.
Qed.

(** [disconnect] when the manager holds no channel does nothing at all, a
    pending retry included. *)
Lemma disconnect_without_channel w : ws w = None -> step w Disconnect = w.
Proof. intros H. cbn. unfold disconnect. rewrite H. reflexivity. Qed.

(** C2 (as the code has it). [disconnect] drops the channel reference and
    leaves the attempt counter and every pending retry as they were: it
    cancels nothing.  If the channel was open it starts closing, and when
    its close event arrives, with attempts left, a retry is scheduled as
    after any other close; that retry, once due, opens a new channel and
    makes it the manager's. *)
Theorem C2_disconnect_does_not_stop_retries w :
  let w1 := step w Disconnect in
  ws w1 = None /\
  timers w1 = timers w /\
  reconnectAttempts w1 = reconnectAttempts w /\
  forall (id : nat) (c : Caller),
    ws w = Some id ->
    sockets w !! id = Some (mkSocket OPEN c) ->
    (reconnectAttempts w < 5)%nat ->
    let w2 := step w1 (SockClose id) in
    let w3 := step w2 (TimerFire (length (timers w)) None) in
    sockets w1 !! id = Some (mkSocket CLOSING c) /\
    reconnectAttempts w2 = S (reconnectAttempts w) /\
    timers w2 = timers w ++ [1000 * 2 ^ Z.of_nat (reconnectAttempts w)] /\
    timers w3 = timers w /\
    ws w3 = Some (length (sockets w)) /\
    sockets w3 !! length (sockets w) = Some (mkSocket CONNECTING ByRetry).
Proof.
  intros w1.
  assert (Hgen : ws w1 = None /\ timers w1 = timers w /\
                 reconnectAttempts w1 = reconnectAttempts w).
  { subst w1. cbn [WS.step]. unfold disconnect, close, setReadyState.
    repeat case_match; simplify_eq; cbn; auto. }
  destruct Hgen as (Hws & Ht & Hn).
  split; [exact Hws|]. split; [exact Ht|]. split; [exact Hn|].
  intros id c Hid Hopen Hlt w2 w3.
  assert (Hlen : (id < length (sockets w))%nat) by (eapply lookup_lt_Some; eauto).
  assert (Hw1 : w1 = mkWorld None (reconnectAttempts w)
                       (<[id := mkSocket CLOSING c]> (sockets w))
                       (timers w) (sent w) (console w) (app w)).
  { subst w1. cbn [WS.step]. unfold disconnect, close, setReadyState.
    rewrite Hid, Hopen. reflexivity. }
  assert (H1 : sockets w1 !! id = Some (mkSocket CLOSING c)).
  { rewrite Hw1. cbn. apply list_lookup_insert_eq. exact Hlen. }
  assert (Hw2 : w2 = mkWorld None (S (reconnectAttempts w))
                       (<[id := mkSocket CLOSED c]> (sockets w))
                       (timers w ++ [1000 * 2 ^ Z.of_nat (reconnectAttempts w)])
                       (sent w) (console w) (app w)).
  { subst w2. cbn [WS.step]. rewrite H1. unfold onclose, setReadyState.
    rewrite H1. rewrite Hw1. cbn.
    rewrite attemptReconnect_budget_left
      by (cbn; unfold maxReconnectAttempts; lia).
    cbn. rewrite list_insert_insert_eq.
    replace (Z.of_nat (S (reconnectAttempts w)) - 1)
      with (Z.of_nat (reconnectAttempts w)) by lia.
    reflexivity. }
  assert (Hw3 : w3 = mkWorld (Some (length (sockets w))) (S (reconnectAttempts w))
                       (<[id := mkSocket CLOSED c]> (sockets w) ++
                          [mkSocket CONNECTING ByRetry])
                       (timers w) (sent w) (console w) (app w)).
  { subst w3. rewrite Hw2. cbn [WS.step timers].
    rewrite lookup_app_r by lia. rewrite Nat.sub_diag. cbn.
    unfold retry, connect. cbn. rewrite length_insert.
    rewrite delete_middle. rewrite app_nil_r. reflexivity. }
  repeat split.
  - exact H1.
  - rewrite Hw2. reflexivity.
  - rewrite Hw2. reflexivity.
  - rewrite Hw3. reflexivity.
  - rewrite Hw3. reflexivity.
  - rewrite Hw3. cbn. rewrite lookup_app_r by (rewrite length_insert; lia).
    rewrite length_insert, Nat.sub_diag. reflexivity.
Qed.

(** C9 (as the code has it). [connect] while the manager's channel is open
    creates one more channel and points the manager at it.  The channel that
    was open is neither closed nor reused: it stays open, with no reference
    left to it.  Counter, timers, outbox and session are untouched. *)
Theorem C9_connect_replaces_open_channel w (id : nat) (c : Caller) :
  ws w = Some id ->
  sockets w !! id = Some (mkSocket OPEN c) ->
  let w' := step w (Connect None) in
  ws w' = Some (length (sockets w)) /\
  ws w' <> Some id /\
  sockets w' = sockets w ++ [mkSocket CONNECTING ByClient] /\
  sockets w' !! id = Some (mkSocket OPEN c) /\
  reconnectAttempts w' = reconnectAttempts w /\
  timers w' = timers w /\
  sent w' = sent w /\
  app w' = app w.
Proof.
  intros Hid Hopen w'.
  assert (Hlen : (id < length (sockets w))%nat) by (eapply lookup_lt_Some; eauto).
  subst w'. cbn. repeat split.
  - intros Heq. injection Heq. lia.
  - rewrite lookup_app_l by exact Hlen. exact Hopen.
Qed.

End ManagerProperties.

(** ** The manager with [VoiceChat] mounted on it *)

Section Mounted.
Import WS.

(** C2, refuted as stated.  [VoiceChat] is connected and calls
    [disconnect()]; the socket's close event follows.  A retry is then
    pending, 1000 ms ahead, and when it fires a second socket is created and
    becomes the manager's channel.  Nor is a retry that is already pending
    cancelled: after an unexpected close, [disconnect()] leaves it in place. *)
Lemma C2_counterexample :
  let w := Scenario.run [Disconnect; SockClose 0%nat] Scenario.connected in
  let w' := Scenario.step w (TimerFire 0%nat None) in
  let v := Scenario.run [SockClose 0%nat; Disconnect] Scenario.connected in
  timers w = [1000] /\
  ws w' = Some 1%nat /\
  sockets w' = [mkSocket CLOSED ByClient; mkSocket CONNECTING ByRetry] /\
  timers v = [1000].
Proof. vm_compute. repeat split. Qed.

Lemma C2_witness :
  let w1 := Scenario.step Scenario.connected Disconnect in
  let w2 := Scenario.step w1 (SockClose 0%nat) in
  let w3 := Scenario.step w2 (TimerFire 0%nat None) in
  sockets w1 !! 0%nat = Some (mkSocket CLOSING ByClient) /\
  reconnectAttempts w2 = 1%nat /\
  timers w2 = [1000] /\
  timers w3 = [] /\
  ws w3 = Some 1%nat /\
  sockets w3 !! 1%nat = Some (mkSocket CONNECTING ByRetry).
Proof.
  refine (proj2 (proj2 (proj2
            (C2_disconnect_does_not_stop_retries Scenario.no_parse
               VoiceChat.onMessage (Some VoiceChat.onError)
               VoiceChat.onResolved Scenario.connected)))
            0%nat ByClient _ _ _).
  - reflexivity.
  - reflexivity.
  - vm_compute. lia.
Defined.

(** The first unexpected close of a connected manager: attempt 1, 1000 ms. *)
Lemma C3_witness :
  let w' := Scenario.step Scenario.connected (SockClose 0%nat) in
  reconnectAttempts w' = 1%nat /\
  timers w' = [1000] /\
  app w' = app Scenario.connected.
Proof.
  refine (proj2 (proj2
            (C3_bounded_backoff Scenario.no_parse VoiceChat.onMessage
               (Some VoiceChat.onError) VoiceChat.onResolved
               [Connect None; SockOpen 0%nat]
               (VoiceChat.mkWorld VoiceChat.mount_render [] [] 1700000000000)
               0%nat (mkSocket OPEN ByClient) _ _))).
  - reflexivity.
  - cbn. discriminate.
Defined.

(** A whole failure episode: the server is gone, every retry fails.  The
    five retries are scheduled 1, 2, 4, 8 and 16 seconds ahead; the close
    that follows the fifth schedules nothing and reaches [VoiceChat]'s error
    callback. *)
Example failure_episode :
  let w1 := Scenario.step Scenario.connected (SockClose 0%nat) in
  let w2 := Scenario.run [TimerFire 0%nat None; SockClose 1%nat] w1 in
  let w3 := Scenario.run [TimerFire 0%nat None; SockClose 2%nat] w2 in
  let w4 := Scenario.run [TimerFire 0%nat None; SockClose 3%nat] w3 in
  let w5 := Scenario.run [TimerFire 0%nat None; SockClose 4%nat] w4 in
  let w6 := Scenario.run [TimerFire 0%nat None; SockClose 5%nat] w5 in
  map timers [w1; w2; w3; w4; w5; w6] =
    [[1000]; [2000]; [4000]; [8000]; [16000]; []] /\
  map reconnectAttempts [w1; w2; w3; w4; w5; w6] = [1; 2; 3; 4; 5; 5]%nat /\
  VoiceChat.console (app w5) = [] /\
  VoiceChat.console (app w6) =
    [("WebSocket error:", CString "Max reconnection attempts reached")].
Proof. vm_compute. repeat split. Qed.

(** A frame that does not parse, then one that does, on the open socket of
    a parser that knows the frame [done]. *)
Lemma C4_witness :
  let parse data := if String.eqb data "done" then Some done_chunk else None in
  let step := WS.step parse VoiceChat.onMessage (Some VoiceChat.onError)
                VoiceChat.onResolved in
  let w := WS.in_app (VoiceChat.setIsProcessing true) Scenario.connected in
  let w' := step w (SockMessage 0%nat "{oops") in
  state_of w' = state_of w /\
  console w' =
    [("Failed to parse WebSocket message:", CString "SyntaxError")] /\
  VoiceChat.isProcessing (VoiceChat.ui (app (step w' (SockMessage 0%nat "done")))) = false.
Proof.
  pose (parse := fun data : string =>
                   if String.eqb data "done" then Some done_chunk else None).
  destruct (C4_unparsable_frame_dropped parse VoiceChat.onMessage
              (Some VoiceChat.onError) VoiceChat.onResolved
              (WS.in_app (VoiceChat.setIsProcessing true) Scenario.connected)
              0%nat ByClient "{oops" "done" done_chunk []
              eq_refl eq_refl eq_refl) as (Hst & _ & Hlog & _ & Happ).
  cbv zeta. split; [exact Hst|]. split; [exact Hlog|].
  fold parse. rewrite Happ. reflexivity.
Defined.

(** C9, refuted as stated.  The manager is connected, its channel open; a
    second [connect] leaves a different world: the manager now points at a
    new, connecting socket, and the first socket is still open. *)
Lemma C9_counterexample :
  let w' := Scenario.step Scenario.connected (Connect None) in
  isConnected Scenario.connected = true /\
  ws Scenario.connected = Some 0%nat /\
  w' <> Scenario.connected /\
  ws w' = Some 1%nat /\
  sockets w' = [mkSocket OPEN ByClient; mkSocket CONNECTING ByClient].
Proof.
  vm_compute. repeat split. intros Heq. discriminate Heq.
Qed.

Lemma C9_witness :
  let w' := Scenario.step Scenario.connected (Connect None) in
  ws w' = Some 1%nat /\
  ws w' <> Some 0%nat /\
  sockets w' = sockets Scenario.connected ++ [mkSocket CONNECTING ByClient] /\
  sockets w' !! 0%nat = Some (mkSocket OPEN ByClient) /\
  reconnectAttempts w' = reconnectAttempts Scenario.connected /\
  timers w' = timers Scenario.connected /\
  sent w' = sent Scenario.connected /\
  app w' = app Scenario.connected.
Proof.
  exact (C9_connect_replaces_open_channel Scenario.no_parse VoiceChat.onMessage
           (Some VoiceChat.onError) VoiceChat.onResolved Scenario.connected
           0%nat ByClient eq_refl eq_refl).
Defined.

(** What the manager hands to [VoiceChat] for a run of frames that parse, all
    on the open socket, is [dispatch] of their chunks, in arrival order. *)
Lemma frames_reach_dispatch
  (parse : string -> option StreamingChunk.t) (id : nat) (c : Caller)
  (frames : list string) (chunks : list StreamingChunk.t) :
  Forall2 (fun data chunk => parse data = Some chunk) frames chunks ->
  forall w : World VoiceChat.World,
  sockets w !! id = Some (mkSocket OPEN c) ->
  app (WS.run parse VoiceChat.onMessage (Some VoiceChat.onError)
         VoiceChat.onResolved (map (SockMessage id) frames) w) =
  VoiceChat.dispatch chunks (app w).
Proof.
  induction 1 as [|data chunk frames chunks Hparse _ IH]; intros w Hopen.
  - reflexivity.
  - cbn [map WS.run fold_left VoiceChat.dispatch WS.step].
    rewrite Hopen. unfold onmessage. rewrite Hparse.
    apply (IH (in_app (VoiceChat.onMessage chunk) w)). exact Hopen.
Qed.

End Mounted.

(** ** Starting an exchange while one is in flight *)

(** C8, refuted as stated.  [TextInput] has a request in flight and the
    user presses Enter on new text: [handleSend] throws nothing, it returns
    normally; and a click on the record button of a processing [VoiceChat]
    runs no handler at all. *)
Lemma C8_counterexample :
  let result := TextInput.handleSend 1700000001000 Scenario.typing_while_busy
                                     Scenario.connected in
  TextInput.isProcessing Scenario.typing_while_busy = true /\
  snd result = Normal Scenario.connected /\
  (forall msg, snd result <> Throws msg) /\
  AudioRecorder.click
    (recorder_props (VoiceChat.ui Scenario.streaming)) = None.
Proof.
  cbn. repeat split. intros msg Heq. discriminate Heq.
Qed.

(** C8 (as the code has it). While a request is in flight, [handleSend]
    returns at once without an error: the messages, the typed input and the
    flag are as they were and nothing is sent.  While [VoiceChat] is
    recording or processing, no click on the record button runs the start
    handler: the button is disabled while processing and bound to the stop
    handler while recording. *)
Theorem C8_busy_start_is_a_silent_noop
  {A : Type} (now : Z) (s : TextInput.State) (w : WS.World A)
  (v : VoiceChat.State) :
  TextInput.isProcessing s = true ->
  VoiceChat.isRecording v = true \/ VoiceChat.isProcessing v = true ->
  TextInput.handleSend now s w = (s, Normal w) /\
  AudioRecorder.click (recorder_props v) <> Some AudioRecorder.onStart /\
  (VoiceChat.isProcessing v = true ->
   AudioRecorder.click (recorder_props v) = None).
Proof.
  intros Hbusy Hv. unfold TextInput.handleSend. rewrite Hbusy, orb_true_r.
  split; [reflexivity|].
  unfold AudioRecorder.click, recorder_props. cbn.
  destruct (VoiceChat.isProcessing v), (VoiceChat.isRecording v);
    repeat split; try discriminate; destruct Hv; discriminate.
Qed.

Lemma C8_witness :
  TextInput.handleSend 1700000001000 Scenario.typing_while_busy Scenario.connected =
    (Scenario.typing_while_busy, Normal Scenario.connected) /\
  AudioRecorder.click (recorder_props (VoiceChat.ui Scenario.streaming)) <>
    Some AudioRecorder.onStart /\
  (VoiceChat.isProcessing (VoiceChat.ui Scenario.streaming) = true ->
   AudioRecorder.click (recorder_props (VoiceChat.ui Scenario.streaming)) = None).
Proof.
  exact (C8_busy_start_is_a_silent_noop 1700000001000 Scenario.typing_while_busy
           Scenario.connected (VoiceChat.ui Scenario.streaming) eq_refl
           (or_intror eq_refl)).
Defined.


(** * Further properties *)

(** ** The connection manager, continued *)

Section ManagerInvariants.
Import WS.
Context {A : Type}.
Variable JSON_parse : string -> option StreamingChunk.t.
Variable onMessage : StreamingChunk.t -> A -> A.
Variable onError : option (string -> A -> A).
Variable onResolved : A -> A.

Local Abbreviation step := (WS.step JSON_parse onMessage onError onResolved).
Local Abbreviation run := (WS.run JSON_parse onMessage onError onResolved).
Local Abbreviation report := (WS.report onError).
Local Abbreviation attemptReconnect := (WS.attemptReconnect onError).

Implicit Types w : World A.

(** X1. [send] goes through exactly when [isConnected] answers yes.  Then the
    payload is queued, once, on the manager's socket and nothing else
    changes; otherwise the call throws and there is no effect at all. *)
Theorem send_succeeds_iff_connected (data : Outbound.t) w :
  match send data w with
  | Normal w' =>
      isConnected w = true /\
      (exists id, ws w = Some id /\ sent w' = sent w ++ [(id, data)]) /\
      ws w' = ws w /\ reconnectAttempts w' = reconnectAttempts w /\
      sockets w' = sockets w /\ timers w' = timers w /\
      console w' = console w /\ app w' = app w
  | Throws msg => isConnected w = false /\ msg = "WebSocket is not connected"
  end.
Proof.
  unfold send, isConnected.
  destruct (ws w) as [id|] eqn:Hws; [|split; reflexivity].
  destruct (sockets w !! id) as [[[] ?]|]; try (split; reflexivity).
  cbn. split; [reflexivity|]. split; [|repeat split; exact Hws].
  exists id. split; reflexivity.
Qed.

Lemma attemptReconnect_reference w :
  ws (attemptReconnect w) = ws w /\ sockets (attemptReconnect w) = sockets w.
Proof.
  unfold WS.attemptReconnect. case_match; [|split; reflexivity].
  destruct (report_frame onError "Max reconnection attempts reached" w)
    as (-> & _ & -> & _).
  split; reflexivity.
Qed.

Lemma live_reference_spec w :
  live_reference w = true <->
  forall id, ws w = Some id ->
    exists s, sockets w !! id = Some s /\ readyState s <> CLOSED.
Proof.
  unfold live_reference. split.
  - intros H id Hid. rewrite Hid in H.
    destruct (sockets w !! id) as [[[] c]|]; try discriminate;
      eexists; (split; [reflexivity | discriminate]).
  - intros H. destruct (ws w) as [id|]; [|reflexivity].
    destruct (H id eq_refl) as ([[] c] & -> & Hlive); try reflexivity.
    exfalso. apply Hlive. reflexivity.
Qed.

Lemma step_live_reference w e :
  live_reference w = true -> live_reference (step w e) = true.
Proof.
  rewrite !live_reference_spec. intros Hw.
  assert (Hsame : forall v : World A,
             ws v = ws w -> sockets v = sockets w ->
             forall id, ws v = Some id ->
               exists s, sockets v !! id = Some s /\ readyState s <> CLOSED).
  { intros v Hv Hs id Hid. rewrite Hs. apply Hw. congruence. }
  assert (Hnew : forall (v : World A) c,
             ws v = Some (length (sockets w)) ->
             sockets v = sockets w ++ [mkSocket CONNECTING c] ->
             forall id, ws v = Some id ->
               exists s, sockets v !! id = Some s /\ readyState s <> CLOSED).
  { intros v c Hv Hs id Hid. rewrite Hv in Hid. injection Hid as <-.
    exists (mkSocket CONNECTING c).
    rewrite Hs, lookup_app_r, Nat.sub_diag by lia. split; [reflexivity|].
    discriminate. }
  assert (Hnone : forall v : World A,
             ws v = None ->
             forall id, ws v = Some id ->
               exists s, sockets v !! id = Some s /\ readyState s <> CLOSED).
  { intros v Hv id Hid. congruence. }
  destruct e; cbn [WS.step].
  - destruct ctor as [msg|]; [apply Hsame; reflexivity|].
    apply (Hnew _ ByClient); reflexivity.
  - unfold disconnect.
    destruct (ws w) eqn:Hws; [apply Hnone; reflexivity | apply Hsame; auto].
  - unfold send. destruct (ws w) as [n|] eqn:Hws; [|apply Hsame; auto].
    destruct (sockets w !! n) as [[[] ?]|]; apply Hsame; auto.
  - destruct (sockets w !! id) as [[[] c]|] eqn:Hs; try (apply Hsame; reflexivity).
    assert (Hlen : (id < length (sockets w))%nat) by (eapply lookup_lt_Some; eauto).
    intros id' Hid'.
    assert (Hws : ws w = Some id').
    { revert Hid'. unfold onopen, setReadyState. rewrite Hs.
      destruct c; cbn; auto. }
    assert (Hso : sockets (onopen onResolved c (setReadyState id OPEN w)) =
                  <[id := mkSocket OPEN c]> (sockets w)).
    { unfold onopen, setReadyState. rewrite Hs. destruct c; reflexivity. }
    rewrite Hso.
    destruct (decide (id = id')) as [<-|Hne].
    + exists (mkSocket OPEN c). split; [|discriminate].
      apply list_lookup_insert_eq. exact Hlen.
    + rewrite list_lookup_insert_ne by exact Hne. apply Hw, Hws.
  - unfold onmessage.
    destruct (sockets w !! id) as [[[] ?]|]; try (apply Hsame; reflexivity).
    destruct (JSON_parse data); apply Hsame; reflexivity.
  - unfold onerror.
    destruct (sockets w !! id) as [[[] ?]|]; try (apply Hsame; reflexivity);
      apply Hsame; apply (report_frame onError "WebSocket error" w).
  - unfold onclose.
    destruct (sockets w !! id) as [[[] ?]|]; try (apply Hsame; reflexivity);
      apply Hnone; rewrite (proj1 (attemptReconnect_reference _)); reflexivity.
  - unfold retry. destruct (timers w !! i); [|apply Hsame; reflexivity].
    destruct ctor as [msg|].
    + destruct (report_frame onError msg (set_timers (delete i (timers w)) w))
        as (Hr1 & _ & Hr2 & _).
      apply Hsame; [exact Hr1 | exact Hr2].
    + apply (Hnew _ ByRetry); reflexivity.
Qed.

(** X2. Whatever happens to a fresh manager, its channel reference is either
    empty or names a socket that exists and is not closed: the manager never
    keeps a closed socket, nor a reference to nothing. *)
Theorem manager_reference_is_live (tr : list Event) (a : A) :
  live_reference (run tr (init a)) = true.
Proof.
  assert (H : forall w, live_reference w = true -> live_reference (run tr w) = true).
  { induction tr as [|e tr IH]; intros w Hw; [exact Hw|].
    cbn. apply IH, step_live_reference, Hw. }
  apply H. reflexivity.
Qed.

(** X3. How each event moves the attempt counter: only the opening of a socket
    can bring it down, and then to zero; only a close can raise it, and then
    by one; nothing else touches it. *)
Theorem counter_moves_only_on_open_and_close w (e : Event) :
  match e with
  | SockOpen _ =>
      reconnectAttempts (step w e) = reconnectAttempts w \/
      reconnectAttempts (step w e) = 0%nat
  | SockClose _ =>
      reconnectAttempts (step w e) = reconnectAttempts w \/
      reconnectAttempts (step w e) = S (reconnectAttempts w)
  | _ => reconnectAttempts (step w e) = reconnectAttempts w
  end.
Proof.
  destruct e; cbn [WS.step].
  - unfold connect. destruct ctor; reflexivity.
  - unfold disconnect, close, setReadyState. repeat case_match; reflexivity.
  - unfold send. repeat case_match; simplify_eq; reflexivity.
  - unfold onopen, setReadyState. repeat case_match; cbn; auto.
  - unfold onmessage. repeat case_match; reflexivity.
  - unfold onerror. repeat case_match; try reflexivity;
      apply (report_frame onError "WebSocket error" w).
  - unfold onclose.
    assert (Hcase : forall v : World A,
               reconnectAttempts (attemptReconnect v) = reconnectAttempts v \/
               reconnectAttempts (attemptReconnect v) = S (reconnectAttempts v)).
    { intros v. unfold WS.attemptReconnect. case_match; [left|right; reflexivity].
      apply (report_frame onError "Max reconnection attempts reached" v). }
    unfold setReadyState.
    repeat case_match; auto;
      match goal with
      | |- context [attemptReconnect ?v] => destruct (Hcase v) as [-> | ->]
      end; cbn; auto.
  - unfold retry, connect. repeat case_match; simplify_eq; try reflexivity.
    match goal with
    | |- context [report ?m ?x] =>
        destruct (report_frame onError m x) as (_ & -> & _)
    end.
    reflexivity.
Qed.

(** X4. A connecting socket opens: it is open, the counter is back at zero
    however many attempts had been made, and if that socket is lost in turn
    the first retry of the new episode is 1000 ms ahead. *)
Theorem reopen_restores_the_budget w (id : nat) (c : Caller) :
  sockets w !! id = Some (mkSocket CONNECTING c) ->
  let w1 := step w (SockOpen id) in
  let w2 := step w1 (SockClose id) in
  sockets w1 !! id = Some (mkSocket OPEN c) /\
  reconnectAttempts w1 = 0%nat /\
  timers w1 = timers w /\
  reconnectAttempts w2 = 1%nat /\
  timers w2 = timers w ++ [1000] /\
  ws w2 = None.
Proof.
  intros Hs w1 w2.
  assert (Hlen : (id < length (sockets w))%nat) by (eapply lookup_lt_Some; eauto).
  assert (H1 : sockets w1 !! id = Some (mkSocket OPEN c) /\
               reconnectAttempts w1 = 0%nat /\ timers w1 = timers w).
  { subst w1. cbn [WS.step]. rewrite Hs. unfold onopen, setReadyState.
    rewrite Hs. destruct c; cbn; (split; [|split; reflexivity]);
      apply list_lookup_insert_eq; exact Hlen. }
  destruct H1 as (Hopen & Hzero & Htimers). clearbody w1.
  repeat split; try assumption.
  all: subst w2; cbn [WS.step]; rewrite Hopen; unfold onclose, setReadyState;
    rewrite Hopen;
    rewrite attemptReconnect_budget_left
      by (cbn; rewrite Hzero; unfold maxReconnectAttempts; lia);
    cbn; rewrite ?Hzero, ?Htimers; reflexivity.
Qed.

(** X5. A retry timer fires and [new WebSocket] throws: the timer is used up,
    no socket is created, reference and counter stay, the error goes to the
    error callback, and no further retry is scheduled by that path. *)
Theorem retry_with_failing_constructor w (i : nat) (delay : Z) (msg : string) :
  timers w !! i = Some delay ->
  let w' := step w (TimerFire i (Some msg)) in
  timers w' = delete i (timers w) /\
  (length (timers w') < length (timers w))%nat /\
  sockets w' = sockets w /\
  ws w' = ws w /\
  reconnectAttempts w' = reconnectAttempts w /\
  app w' = match onError with
           | Some f => f msg (app w)
           | None => app w
           end.
Proof.
  intros Hi w'. subst w'. cbn [WS.step]. rewrite Hi.
  unfold retry, connect, WS.report.
  assert (Hlen : (i < length (timers w))%nat) by (eapply lookup_lt_Some; eauto).
  destruct onError; cbn; repeat split; rewrite length_delete by eauto; lia.
Qed.

End ManagerInvariants.

(** ** Chunk sequences *)

Section Sequences.
Import VoiceChat.

Lemma feed_cons pick chunk chunks w :
  feed pick (chunk :: chunks) w =
  feed pick chunks (handleStreamingChunk (pick w) chunk w).
Proof. reflexivity. Qed.

Lemma feed_app pick chunks chunks' w :
  feed pick (chunks ++ chunks') w = feed pick chunks' (feed pick chunks w).
Proof. unfold feed. apply fold_left_app. Qed.

(** What one chunk does outside the accumulator, the snapshot and the
    message list, whatever render the handler belongs to. *)
Lemma chunk_side_effects r chunk w :
  let w' := handleStreamingChunk r chunk w in
  played w' =
    played w ++ (if is_audio chunk then [StreamingChunk.content chunk] else []) /\
  console w' =
    console w ++ (if is_error chunk
                  then [("Streaming error:", StreamingChunk.content chunk)]
                  else []) /\
  isProcessing (ui w') =
    (if is_terminal chunk then false else isProcessing (ui w)) /\
  isRecording (ui w') = isRecording (ui w) /\
  isConnected (ui w') = isConnected (ui w).
Proof.
  unfold handleStreamingChunk, is_audio, is_error, is_terminal.
  destruct (StreamingChunk.type chunk); cbn;
    try destruct (truthy (currentResponse r)); cbn;
    rewrite ?app_nil_r; repeat split.
Qed.


(** X7. After any run of chunks the processing indicator is down if a [done] or
    an [error] chunk was among them and untouched otherwise; no chunk ever
    changes the recording or the connection indicator. *)
Theorem indicators_after_chunks
  (pick : World -> State) (chunks : list StreamingChunk.t) (w : World) :
  isProcessing (ui (feed pick chunks w)) =
    (if existsb is_terminal chunks then false else isProcessing (ui w)) /\
  isRecording (ui (feed pick chunks w)) = isRecording (ui w) /\
  isConnected (ui (feed pick chunks w)) = isConnected (ui w).
Proof.
  revert w. induction chunks as [|c cs IH]; intros w.
  - repeat split.
  - rewrite feed_cons.
    destruct (IH (handleStreamingChunk (pick w) c w)) as (-> & -> & ->).
    destruct (chunk_side_effects (pick w) c w) as (_ & _ & -> & -> & ->).
    cbn [existsb].
    destruct (is_terminal c), (existsb is_terminal cs); repeat split.
Qed.

Lemma mounted_chunk_effect chunk w :
  messages (ui (onMessage chunk w)) = messages (ui w) /\
  currentResponse (ui (onMessage chunk w)) =
    currentResponse (ui w) +:+
    (if is_text chunk then to_string (StreamingChunk.content chunk) else "").
Proof.
  unfold onMessage, handleStreamingChunk, is_text.
  destruct (StreamingChunk.type chunk); cbn; rewrite ?append_nil_r;
    split; reflexivity.
Qed.

(** X8. For the dispatcher [VoiceChat] registers at mount, and for every run of
    chunks of any types: the message list is never changed, and the
    accumulator is never reset, it only grows by the contents of the [text]
    chunks, in order. *)
Theorem mounted_dispatch_only_accumulates
  (chunks : list StreamingChunk.t) (w : World) :
  messages (ui (dispatch chunks w)) = messages (ui w) /\
  currentResponse (ui (dispatch chunks w)) =
    currentResponse (ui w) +:+ concat_contents (List.filter is_text chunks).
Proof.
  revert w. induction chunks as [|c cs IH]; intros w.
  - cbn. rewrite append_nil_r. split; reflexivity.
  - unfold dispatch. cbn [fold_left]. fold (dispatch cs (onMessage c w)).
    destruct (IH (onMessage c w)) as (-> & ->).
    destruct (mounted_chunk_effect c w) as (-> & ->).
    cbn [List.filter].
    destruct (is_text c); cbn [concat_contents foldr];
      rewrite ?append_nil_r, ?append_assoc; split; reflexivity.
Qed.

Lemma snapshot_after_chunk r chunk w :
  councilUpdate (ui (handleStreamingChunk r chunk w)) =
  if writes_snapshot chunk
  then match StreamingChunk.type chunk with
       | council_update => Some (StreamingChunk.content chunk)
       | _ => None
       end
  else councilUpdate (ui w).
Proof.
  unfold handleStreamingChunk, writes_snapshot.
  destruct (StreamingChunk.type chunk); cbn;
    try destruct (truthy (currentResponse r)); reflexivity.
Qed.

Lemma snapshot_kept pick chunks : forall w,
  existsb writes_snapshot chunks = false ->
  councilUpdate (ui (feed pick chunks w)) = councilUpdate (ui w).
Proof.
  induction chunks as [|c cs IH]; intros w Hno; [reflexivity|].
  cbn [existsb] in Hno. apply orb_false_elim in Hno as [Hc Hcs].
  rewrite feed_cons, (IH _ Hcs), snapshot_after_chunk, Hc. reflexivity.
Qed.

(** X9. Last write wins over a whole stream: the snapshot on display is the
    payload of the latest [council_update] chunk if no [done] came after it,
    and none if the latest writer was a [done]; text, audio and error chunks
    in between or after do not touch it. *)
Theorem snapshot_is_last_write
  (pick : World -> State) (before after : list StreamingChunk.t)
  (chunk : StreamingChunk.t) (w : World) :
  writes_snapshot chunk = true ->
  existsb writes_snapshot after = false ->
  councilUpdate (ui (feed pick (before ++ chunk :: after) w)) =
  match StreamingChunk.type chunk with
  | council_update => Some (StreamingChunk.content chunk)
  | _ => None
  end.
Proof.
  intros Hw Hafter.
  rewrite feed_app, feed_cons, (snapshot_kept _ _ _ Hafter),
    snapshot_after_chunk, Hw.
  reflexivity.
Qed.

Lemma snapshot_is_last_write_witness :
  councilUpdate
    (ui (dispatch [council_chunk Scenario.opinions_round; text_chunk "a";
                   council_chunk Scenario.review_round; text_chunk "b";
                   error_chunk "late"] Scenario.streaming)) =
  Some (CCouncil Scenario.review_round).
Proof.
  exact (snapshot_is_last_write (fun _ => mount_render)
           [council_chunk Scenario.opinions_round; text_chunk "a"]
           [text_chunk "b"; error_chunk "late"]
           (council_chunk Scenario.review_round) Scenario.streaming
           eq_refl eq_refl).
Defined.

End Sequences.

(** ** The recording exchange *)

Section Recording.
Import VoiceChat.

(** X10. The recording is stopped on an open channel and the transcription
    endpoint answers OK with [text]: one user message with that text (and
    the snapshot of the render the button was clicked in, if there was one)
    is appended, one [audio] request carrying the text is queued on the
    manager's socket, the recording indicator is down and the processing
    indicator stays up for the reply. *)
Theorem recording_exchange_sends_the_transcription
  (r : State) (audioBlob : Bytes) (status : string) (transcript : string)
  (w : WS.World World) (id : nat) (c : WS.Caller) :
  WS.ws w = Some id ->
  WS.sockets w !! id = Some (WS.mkSocket WS.OPEN c) ->
  let fetched :=
    Normal (ApiClient.mkResponse true status
              (Normal (ApiClient.mkTranscription transcript))) in
  let w' := recording_exchange r (Normal audioBlob) fetched w in
  WS.sent w' = WS.sent w ++ [(id, Outbound.mk rt_audio transcript [])] /\
  messages (ui (WS.app w')) =
    messages (ui (WS.app w)) ++
    [Message.mk (now (WS.app w)) user transcript (now (WS.app w))
       (if truthy_snapshot (councilUpdate r)
        then Some (Message.mkMetadata (councilUpdate r) None)
        else None)] /\
  isRecording (ui (WS.app w')) = false /\
  isProcessing (ui (WS.app w')) = true /\
  currentResponse (ui (WS.app w')) = currentResponse (ui (WS.app w)) /\
  console (WS.app w') = console (WS.app w).
Proof.
  intros Hid Hopen fetched w'. subst w' fetched.
  unfold recording_exchange, transcribed_text, handleRecordingStop. cbn.
  unfold WS.send. cbn. rewrite Hid, Hopen. cbn. repeat split.
Qed.

Lemma recording_exchange_sends_the_transcription_witness :
  let w' := recording_exchange (ui (WS.app Scenario.recording)) (Normal Cases.wav)
              (Normal (ApiClient.mkResponse true "OK"
                         (Normal (ApiClient.mkTranscription "turn on the lights"))))
              Scenario.recording in
  WS.sent w' = [(0%nat, Outbound.mk rt_audio "turn on the lights" [])] /\
  isProcessing (ui (WS.app w')) = true.
Proof.
  destruct (recording_exchange_sends_the_transcription
              (ui (WS.app Scenario.recording)) Cases.wav "OK"
              "turn on the lights" Scenario.recording 0%nat WS.ByClient
              eq_refl eq_refl) as (Hsent & _ & _ & Hproc & _).
  split; [exact Hsent | exact Hproc].
Defined.

(** X11. The transcription succeeds but the channel is not open: [send] throws
    after [addMessage] ran, so the user message is in the list although
    nothing was sent; the failure is logged and the processing indicator is
    cleared. *)
Theorem recording_exchange_offline_keeps_the_message
  (r : State) (audioBlob : Bytes) (transcript : string) (w : WS.World World) :
  WS.isConnected w = false ->
  let w' := handleRecordingStop r (Normal audioBlob) (Normal transcript) w in
  WS.sent w' = WS.sent w /\
  map Message.content (messages (ui (WS.app w'))) =
    map Message.content (messages (ui (WS.app w))) ++ [transcript] /\
  isRecording (ui (WS.app w')) = false /\
  isProcessing (ui (WS.app w')) = false /\
  console (WS.app w') =
    console (WS.app w) ++
    [("Failed to process recording:", CString "WebSocket is not connected")].
Proof.
  intros Hoff w'. subst w'. unfold handleRecordingStop.
  match goal with
  | |- context [WS.send ?d ?v] =>
      pose proof (send_succeeds_iff_connected d v) as Hsend;
      destruct (WS.send d v) as [v'|msg]
  end.
  - destruct Hsend as (Hon & _). cbn in Hon. unfold WS.isConnected in Hoff, Hon.
    cbn in Hon. congruence.
  - destruct Hsend as (_ & ->). cbn. rewrite map_app. repeat split.
Qed.

Lemma recording_exchange_offline_keeps_the_message_witness :
  let w' := handleRecordingStop mount_render (Normal Cases.wav)
              (Normal "turn on the lights") Cases.waiting_to_retry in
  map Message.content (messages (ui (WS.app w'))) = ["turn on the lights"] /\
  WS.sent w' = [].
Proof.
  destruct (recording_exchange_offline_keeps_the_message mount_render Cases.wav
              "turn on the lights" Cases.waiting_to_retry eq_refl)
    as (Hsent & Hmsgs & _).
  split; [exact Hmsgs | exact Hsent].
Defined.

(** X12. [audioService.stopRecording()] rejects: nothing is transcribed, appended
    or sent and the processing indicator is down, but the recording
    indicator is left as it was, since the line that lowers it is never
    reached. *)
Theorem recording_stop_rejected_leaves_the_indicator
  (r : State) (e : string) (transcribed : Completion string)
  (w : WS.World World) :
  let w' := handleRecordingStop r (Throws e) transcribed w in
  isRecording (ui (WS.app w')) = isRecording (ui (WS.app w)) /\
  isProcessing (ui (WS.app w')) = false /\
  messages (ui (WS.app w')) = messages (ui (WS.app w)) /\
  WS.sent w' = WS.sent w /\
  console (WS.app w') =
    console (WS.app w) ++ [("Failed to process recording:", CString e)].
Proof. cbn. repeat split. Qed.

(** X13. The transcription endpoint does not answer OK: whatever its body holds,
    the exchange is aborted with the status text in the log; nothing is
    appended or sent and the session is idle. *)
Theorem rejected_transcription_aborts_the_exchange
  (r : State) (audioBlob : Bytes) (response : ApiClient.Response)
  (w : WS.World World) :
  ApiClient.ok response = false ->
  let w' := recording_exchange r (Normal audioBlob) (Normal response) w in
  WS.sent w' = WS.sent w /\
  messages (ui (WS.app w')) = messages (ui (WS.app w)) /\
  Idle (ui (WS.app w')) /\
  console (WS.app w') =
    console (WS.app w) ++
    [("Failed to process recording:",
      CString ("API error: " +:+ ApiClient.statusText response))].
Proof.
  intros Hbad w'. subst w'.
  unfold recording_exchange, transcribed_text, ApiClient.transcribeAudio.
  rewrite Hbad. cbn. repeat split.
Qed.

Lemma rejected_transcription_aborts_the_exchange_witness :
  let w' := recording_exchange mount_render (Normal Cases.wav)
              (Normal Cases.service_unavailable) Scenario.recording in
  console (WS.app w') =
    [("Failed to process recording:", CString "API error: Service Unavailable")].
Proof.
  exact (proj2 (proj2 (proj2
           (rejected_transcription_aborts_the_exchange mount_render Cases.wav
              Cases.service_unavailable Scenario.recording eq_refl)))).
Defined.

(** X14. Starting a recording: if the capture succeeds the service holds a
    recording recorder with no audio yet and the indicator is up; if it
    fails at any stage the session is exactly as before, and the log holds
    the error, wrapped once by the service. *)
Theorem recording_start_outcomes
  (c : AudioService.Capture) (svc : AudioService.State) (w : World) :
  let svc' := fst (recording_start c svc w) in
  let w' := snd (recording_start c svc w) in
  match c with
  | AudioService.Captured =>
      svc' = AudioService.mkState (Some AudioService.recording) [] /\
      isRecording (ui w') = true /\
      messages (ui w') = messages (ui w) /\
      console w' = console w
  | AudioService.GetUserMediaRejects e
  | AudioService.RecorderThrows e
  | AudioService.StartThrows e =>
      ui w' = ui w /\
      console w' =
        console w ++
        [("Failed to start recording:",
          CString ("Failed to start recording: " +:+ e))]
  end.
Proof. destruct c; cbn; repeat split. Qed.

End Recording.

(** ** The audio service *)

Section Capture.
Import AudioService.

Lemma chunks_without_restart (tail : list Event) : forall s,
  existsb is_start tail = false ->
  concat (audioChunks (run tail s)) =
  concat (audioChunks s) ++ concat (map payload tail).
Proof.
  induction tail as [|e tail IH]; intros s Hno.
  - cbn. rewrite app_nil_r. reflexivity.
  - cbn [existsb] in Hno. apply orb_false_elim in Hno as [He Htail].
    cbn [run fold_left]. fold (run tail (step s e)). rewrite (IH _ Htail).
    destruct e as [c|data|thr]; [discriminate| |].
    + cbn [step map payload concat]. unfold ondataavailable.
      destruct data; cbn [audioChunks].
      * reflexivity.
      * rewrite concat_app. cbn [concat]. rewrite app_nil_r, app_assoc.
        reflexivity.
    + cbn [step map payload concat]. unfold stopRecording.
      destruct (mediaRecorder s); [destruct thr|]; reflexivity.
Qed.

(** X15. The blob a recording resolves with is the data delivered since the
    latest successful [startRecording], joined in order: whatever was
    captured, stopped or left over before that start is not in it, and
    empty data events add nothing. *)
Theorem blob_is_the_data_since_the_last_start
  (history tail : list Event) (s : State) :
  existsb is_start tail = false ->
  onstop (run (history ++ Start Captured :: tail) s) = concat (map payload tail).
Proof.
  intros Hno. unfold onstop, run. rewrite fold_left_app. cbn [fold_left].
  fold (run history s). fold (run tail (step (run history s) (Start Captured))).
  rewrite (chunks_without_restart _ _ Hno). reflexivity.
Qed.

Lemma blob_is_the_data_since_the_last_start_witness :
  onstop (run ([Start Captured; Data [Byte.x01]; Stop None] ++
               Start Captured ::
               [Data [Byte.x02; Byte.x03]; Data []; Stop None; Data [Byte.x04]])
              init) =
  [Byte.x02; Byte.x03; Byte.x04].
Proof.
  exact (blob_is_the_data_since_the_last_start
           [Start Captured; Data [Byte.x01]; Stop None]
           [Data [Byte.x02; Byte.x03]; Data []; Stop None; Data [Byte.x04]]
           init eq_refl).
Defined.

Lemma recorder_after (tr : list Event) : forall s,
  mediaRecorder (run tr s) = None <->
  mediaRecorder s = None /\ existsb creates_recorder tr = false.
Proof.
  induction tr as [|e tr IH]; intros s.
  - cbn. tauto.
  - cbn [run fold_left existsb]. fold (run tr (step s e)). rewrite IH.
    rewrite orb_false_iff.
    destruct e as [[]|data|thr]; cbn [step startRecording fst creates_recorder
                                        mediaRecorder];
      try (split; [intros [? ?]|intros [? [? ?]]]; try discriminate; tauto).
    + unfold ondataavailable. destruct data; cbn; tauto.
    + unfold stopRecording. destruct (mediaRecorder s) eqn:Hm;
        [destruct thr|]; cbn; rewrite ?Hm;
        (split; [intros [? ?]|intros [? [? ?]]]; try discriminate; tauto).
Qed.

(** X16. From a fresh service, [stopRecording] is rejected as not initialized
    exactly when no [startRecording] ever got as far as creating a
    recorder; once one did, later stops are never rejected that way, also
    after the recording was stopped. *)
Theorem stop_rejected_iff_never_started (tr : list Event) :
  snd (stopRecording None (run tr init)) =
  if existsb creates_recorder tr
  then Normal tt
  else Throws "MediaRecorder not initialized".
Proof.
  unfold stopRecording.
  destruct (mediaRecorder (run tr init)) eqn:Hm.
  - destruct (existsb creates_recorder tr) eqn:Hc; [reflexivity|].
    assert (Hnone : mediaRecorder (run tr init) = None)
      by (apply recorder_after; split; [reflexivity | exact Hc]).
    congruence.
  - apply recorder_after in Hm as [_ ->]. reflexivity.
Qed.

End Capture.

(** ** The typed exchange *)

Section Typed.
Import TextInput.

Lemma truthy_trim_start (s : string) : truthy (trim_start s) = negb (all_space s).
Proof.
  induction s as [|c s IH]; [reflexivity|].
  cbn. destruct (Ascii.is_space c); [exact IH | reflexivity].
Qed.

Lemma all_space_trim_start (s : string) : all_space (trim_start s) = all_space s.
Proof.
  induction s as [|c s IH]; [reflexivity|].
  cbn. destruct (Ascii.is_space c) eqn:Hc; [exact IH|].
  cbn. rewrite Hc. reflexivity.
Qed.

Lemma all_space_rev_app (s t : string) :
  all_space (String.rev_app s t) = all_space s && all_space t.
Proof.
  revert t. induction s as [|c s IH]; intros t; [reflexivity|].
  cbn. rewrite IH. cbn. destruct (Ascii.is_space c), (all_space s); reflexivity.
Qed.

Lemma truthy_rev (s : string) : truthy (String.rev s) = truthy s.
Proof.
  unfold String.rev.
  assert (H : forall s t, truthy t = true -> truthy (String.rev_app s t) = true).
  { clear s. induction s as [|c s IH]; intros t Ht; [exact Ht|].
    cbn. apply IH. reflexivity. }
  destruct s as [|c s]; [reflexivity|]. cbn. apply H. reflexivity.
Qed.

(** The guard [!input.trim()] fires exactly on white space. *)
Lemma trim_truthy_iff (s : string) : truthy (trim s) = negb (all_space s).
Proof.
  unfold trim.
  rewrite truthy_rev, truthy_trim_start. unfold String.rev.
  rewrite all_space_rev_app, all_space_trim_start, andb_true_r.
  reflexivity.
Qed.



Lemma graphic_is_not_space (c : Ascii.ascii) :
  is_graphic c = true -> Ascii.is_space c = false.
Proof.
  destruct c as [[] [] [] [] [] [] [] []]; cbn; intros H;
    first [reflexivity | discriminate H].
Qed.

Lemma has_graphic_not_blank (s : string) :
  has_graphic s = true -> all_space s = false.
Proof.
  induction s as [|c s IH]; [discriminate|].
  cbn. intros [Hc|Hs]%orb_true_iff.
  - rewrite (graphic_is_not_space c Hc). reflexivity.
  - rewrite (IH Hs). apply andb_false_r.
Qed.

(** X18. An idle [TextInput] with a printable character typed, on an open
    channel: the text goes out, and into the message list, exactly as typed
    (the trimmed form is used for the test only), in one [text] request on
    the manager's socket; the field is emptied and the processing flag
    raised. *)
Theorem typed_input_is_sent_verbatim
  {A : Type} (now : Z) (s : State) (w : WS.World A) (id : nat) (c : WS.Caller) :
  has_graphic (input s) = true ->
  isProcessing s = false ->
  WS.ws w = Some id ->
  WS.sockets w !! id = Some (WS.mkSocket WS.OPEN c) ->
  handleSend now s w =
  (mkState (messages s ++ [Message.mk now user (input s) now None]) "" true,
   Normal (WS.set_sent (WS.sent w ++ [(id, Outbound.mk rt_text (input s) [])]) w)).
Proof.
  intros Hvis%has_graphic_not_blank Hidle Hid Hopen. unfold handleSend.
  rewrite trim_truthy_iff, Hvis, Hidle. cbn.
  unfold WS.send. rewrite Hid, Hopen. reflexivity.
Qed.

Lemma typed_input_is_sent_verbatim_witness :
  handleSend 1700000001000 Cases.question_typed Scenario.connected =
  (mkState [Message.mk 1700000001000 user "  What is new?  " 1700000001000 None]
           "" true,
   Normal (WS.set_sent
             [(0%nat, Outbound.mk rt_text "  What is new?  " [])]
             Scenario.connected)).
Proof.
  exact (typed_input_is_sent_verbatim 1700000001000 Cases.question_typed
           Scenario.connected 0%nat WS.ByClient eq_refl eq_refl eq_refl eq_refl).
Defined.

(** X19. Once [handleSend] has passed its guard (a printable character typed, the
    flag down), whether the request went out or [send] threw, the user
    message is in the list and the processing flag is up; and as no code
    of [TextInput] lowers the flag again, every later [handleSend],
    whatever is typed in between, does nothing. *)
Theorem text_input_latches_busy
  {A : Type} (now now' : Z) (s : State) (w w' : WS.World A) (typed : string) :
  has_graphic (input s) = true ->
  isProcessing s = false ->
  let s' := fst (handleSend now s w) in
  messages s' = messages s ++ [Message.mk now user (input s) now None] /\
  isProcessing s' = true /\
  handleSend now' (setInput typed s') w' = (setInput typed s', Normal w').
Proof.
  intros Hvis%has_graphic_not_blank Hidle s'.
  assert (Hs' : s' = mkState (messages s ++ [Message.mk now user (input s) now None])
                             "" true).
  { subst s'. unfold handleSend. rewrite trim_truthy_iff, Hvis, Hidle.
    reflexivity. }
  rewrite Hs'. split; [reflexivity|]. split; [reflexivity|].
  unfold handleSend, setInput. cbn [isProcessing]. rewrite orb_true_r.
  reflexivity.
Qed.

Lemma text_input_latches_busy_witness :
  let s' := fst (handleSend 1700000001000 Cases.question_typed
                            Cases.waiting_to_retry) in
  snd (handleSend 1700000001000 Cases.question_typed Cases.waiting_to_retry) =
    Throws "WebSocket is not connected" /\
  isProcessing s' = true /\
  handleSend 1700000002000 (setInput "again" s') Scenario.connected =
    (setInput "again" s', Normal Scenario.connected).
Proof.
  destruct (text_input_latches_busy 1700000001000 1700000002000
              Cases.question_typed Cases.waiting_to_retry Scenario.connected
              "again" eq_refl eq_refl) as (_ & Hbusy & Hnoop).
  split; [reflexivity|]. split; [exact Hbusy | exact Hnoop].
Defined.

End Typed.

(** ** The [useWebSocket] hook *)

Section Hook.
Import UseWebSocket.

(** X20. A hook that was given a URL builds a new manager for every call.  Its
    [send] therefore always throws, even while the shared manager is
    connected, and its [disconnect] closes nothing: manager, sockets, timers
    and session are as before, only the hook's flag goes down. *)
Theorem hook_with_url_never_reaches_a_channel
  {A : Type} (url : string) (data : Outbound.t) (s : State) (w : WS.World A) :
  truthy url = true ->
  send (Some url) data w = Throws "WebSocket is not connected" /\
  snd (disconnect (Some url) s w) = w /\
  isConnected (fst (disconnect (Some url) s w)) = false.
Proof.
  intros Hurl. unfold send, disconnect, own_manager. rewrite Hurl. cbn.
  destruct w. repeat split.
Qed.

Lemma hook_with_url_never_reaches_a_channel_witness :
  WS.isConnected Scenario.connected = true /\
  send (Some "ws://localhost:8000/ws") (Outbound.mk rt_text "hi" [])
       Scenario.connected = Throws "WebSocket is not connected".
Proof.
  split; [reflexivity|].
  exact (proj1 (hook_with_url_never_reaches_a_channel "ws://localhost:8000/ws"
                  (Outbound.mk rt_text "hi" []) (mkState true None)
                  Scenario.connected eq_refl)).
Defined.

End Hook.

(** ** The manager with [VoiceChat] mounted on it, continued *)

Section MountedMore.
Import WS.

(** The retry socket of [Cases.reconnecting] opens after one failed
    attempt. *)
Lemma reopen_restores_the_budget_witness :
  let w1 := Scenario.step Cases.reconnecting (SockOpen 1%nat) in
  let w2 := Scenario.step w1 (SockClose 1%nat) in
  reconnectAttempts Cases.reconnecting = 1%nat /\
  reconnectAttempts w1 = 0%nat /\
  timers w2 = [1000].
Proof.
  destruct (reopen_restores_the_budget Scenario.no_parse VoiceChat.onMessage
              (Some VoiceChat.onError) VoiceChat.onResolved Cases.reconnecting
              1%nat ByRetry eq_refl) as (_ & Hzero & _ & _ & Htimers & _).
  split; [reflexivity|]. split; [exact Hzero | exact Htimers].
Defined.

(** The pending retry of [Cases.waiting_to_retry] fires on a URL the
    constructor refuses. *)
Lemma retry_with_failing_constructor_witness :
  let w' := Scenario.step Cases.waiting_to_retry
              (TimerFire 0%nat (Some "SyntaxError: invalid URL")) in
  timers w' = [] /\
  sockets w' = sockets Cases.waiting_to_retry /\
  VoiceChat.console (app w') =
    [("WebSocket error:", CString "SyntaxError: invalid URL")].
Proof.
  destruct (retry_with_failing_constructor Scenario.no_parse VoiceChat.onMessage
              (Some VoiceChat.onError) VoiceChat.onResolved
              Cases.waiting_to_retry 0%nat 1000 "SyntaxError: invalid URL"
              eq_refl) as (Ht & _ & Hs & _ & _ & Happ).
  split; [exact Ht|]. split; [exact Hs|].
  unfold Scenario.step. rewrite Happ. reflexivity.
Defined.

End MountedMore.
